(** * Spotted bot: event information, moderation hand-off and publication

    A shallow embedding of [src/spotted/utils/info_util.py] (class
    [EventInfo]), [src/spotted/handlers/constants.py] (the [STATE] table) and
    [modules/handlers/db_backup.py] (the [/db_backup] command), together with
    the properties the specification states about them.

    Python objects become records, [None]-able attributes become [option],
    exceptions become the [Raise] results of a small state-and-error monad,
    and the calls made on the Telegram bot are recorded, in order, in the
    world the handlers run in. *)

From stdpp Require Import gmap strings list pretty sorting.
From Stdlib Require Import ZArith Ascii.

Set Warnings "-register-all".

Local Open Scope Z_scope.

(** ** Python values used by the handlers *)

(** Exceptions the modelled code can raise.  [BadRequest] is the only one a
    handler catches; [TelegramError] stands for every other error of the
    transport ([Forbidden], [TimedOut], ...). *)
Inductive exn : Type :=
| BadRequest
| TelegramError
| AttributeError
| IndexError.

Inductive result (A : Type) : Type :=
| Ok (a : A)
| Raise (e : exn).
Arguments Ok {A} a.
Arguments Raise {A} e.

(** Truth value of a [str]: the empty string is false. *)
Definition str_truthy (s : string) : bool :=
  match s with
  | EmptyString => false
  | String _ _ => true
  end.

(** Truth value of an attribute that is [None] or a [str]. *)
Definition opt_str_truthy (o : option string) : bool :=
  match o with
  | Some s => str_truthy s
  | None => false
  end.

(** Truth value of an attribute that is [None] or a plain object. *)
Definition opt_truthy {A : Type} (o : option A) : bool :=
  match o with
  | Some _ => true
  | None => false
  end.

(** Truth value of a tuple or list. *)
Definition seq_truthy {A : Type} (l : list A) : bool :=
  match l with
  | [] => false
  | _ :: _ => true
  end.

(** [l[i]] on a list: [IndexError] out of range. *)
Definition list_index {A : Type} (l : list A) (i : nat) : result A :=
  match l !! i with
  | Some x => Ok x
  | None => Raise IndexError
  end.

(** [s.split(sep)] for a one-character separator: the fields between the
    occurrences of [sep], never an empty list. *)
Fixpoint split (sep : Ascii.ascii) (s : string) : list string :=
  match s with
  | EmptyString => [EmptyString]
  | String c s' =>
      if Ascii.eqb c sep then EmptyString :: split sep s'
      else match split sep s' with
           | hd :: tl => String c hd :: tl
           | [] => [String c EmptyString]
           end
  end.

(** [sep.join(l)]. *)
Fixpoint join (sep : string) (l : list string) : string :=
  match l with
  | [] => EmptyString
  | [x] => x
  | x :: tl => x +:+ sep +:+ join sep tl
  end.

Definition comma : Ascii.ascii := ","%char.

(** [str(x)] for an attribute that may be [None], as an f-string formats it. *)
Definition fmt_opt_int (o : option Z) : string :=
  match o with
  | Some z => pretty z
  | None => "None"
  end.

(** ** Objects of the Telegram library *)

Module User.
Record t : Type := mk {
  id : Z;
  username : option string;
  first_name : string;
  last_name : option string
}.

Definition full_name (u : t) : string :=
  match last_name u with
  | Some l => if str_truthy l then first_name u +:+ " " +:+ l else first_name u
  | None => first_name u
  end.

(** The library's [name] property: the [@username] when there is one, the
    full name otherwise. *)
Definition name (u : t) : string :=
  match username u with
  | Some n => if str_truthy n then "@" +:+ n else full_name u
  | None => full_name u
  end.
End User.

Module Chat.
Record t : Type := mk {
  id : Z;
  type : string
}.

Definition PRIVATE : string := "private".
End Chat.

Module PollOption.
Record t : Type := mk {
  text : string;
  voter_count : Z
}.
End PollOption.

Module Poll.
Record t : Type := mk {
  id : string;
  question : string;
  options : list PollOption.t;
  total_voter_count : Z;
  is_closed : bool;
  is_anonymous : bool;
  type : string;
  allows_multiple_answers : bool;
  correct_option_id : option Z
}.
End Poll.

Module MessageEntity.
Record t : Type := mk {
  type : string;
  offset : Z;
  length : Z;
  url : option string;
  user : option User.t
}.
End MessageEntity.

(** Media attachments are only tested for presence. *)
Record FileRef : Type := mkFileRef { file_id : string }.

Module InlineKeyboardButton.
Record t : Type := mk {
  text : string;
  callback_data : option string
}.
End InlineKeyboardButton.

Definition InlineKeyboardMarkup : Type := list (list InlineKeyboardButton.t).

Module Message.
Inductive t : Type := mk {
  message_id : Z;
  chat : Chat.t;
  from_user : option User.t;
  text : option string;
  entities : list MessageEntity.t;
  photo : list FileRef;
  voice : option FileRef;
  audio : option FileRef;
  video : option FileRef;
  animation : option FileRef;
  sticker : option FileRef;
  poll : option Poll.t;
  reply_markup : option InlineKeyboardMarkup;
  reply_to_message : option t;
  forward_from_message_id : option Z;
  forward_from_chat : option Chat.t
}.

(** The library's [chat_id] shortcut. *)
Definition chat_id (m : t) : Z := Chat.id (chat m).
End Message.

Module CallbackQuery.
Record t : Type := mk {
  id : string;
  from_user : User.t;
  data : option string;
  message : option Message.t
}.
End CallbackQuery.

Module Update.
Record t : Type := mk {
  message : option Message.t;
  edited_message : option Message.t;
  callback_query : option CallbackQuery.t
}.
End Update.

(** The handler context: the command arguments.  The [bot_data] and
    [user_data] dictionaries it gives access to are shared and mutable, they
    live in the world below. *)
Module CallbackContext.
Record t : Type := mk {
  args : option (list string)
}.
End CallbackContext.

(** ** Configuration *)

Module Config.
Record t : Type := mk {
  group_id : Z;            (* meme_get('group_id') *)
  admin_group_id : Z;      (* post_get("admin_group_id") *)
  channel_id : Z;          (* post_get("channel_id") *)
  community_group_id : Z;  (* post_get("community_group_id") *)
  comments : bool          (* post_get("comments") *)
}.
End Config.

(** ** The conversation states, [handlers/constants.py] *)

Definition STATE : list (string * Z) :=
  [ ("posting", 1);
    ("confirm", 2);
    ("reporting_spot", 3);
    ("reporting_user", 4);
    ("reporting_user_reason", 6);
    ("sending_user_report", 7);
    ("end", -1) ].

(** [d[k]] on a dictionary written as its list of items. *)
Fixpoint dict_get (d : list (string * Z)) (k : string) : option Z :=
  match d with
  | [] => None
  | (k', v) :: d' => if String.eqb k' k then Some v else dict_get d' k
  end.

(** ** [EventInfo] *)

Module EventInfo.
Record t : Type := mk {
  ctx : CallbackContext.t;
  update : option Update.t;
  message : option Message.t;
  query : option CallbackQuery.t
}.

Definition chat_id (self : t) : option Z :=
  match message self with
  | None => None
  | Some m => Some (Message.chat_id m)
  end.

Definition chat_type (self : t) : option string :=
  match message self with
  | None => None
  | Some m => Some (Chat.type (Message.chat m))
  end.

Definition is_private_chat (self : t) : option bool :=
  match chat_type self with
  | None => None
  | Some ty => Some (String.eqb ty Chat.PRIVATE)
  end.

Definition text (self : t) : option string :=
  match message self with
  | None => None
  | Some m => Message.text m
  end.

Definition callback_key (self : t) : result string :=
  match query self with
  | None => Ok ""
  | Some q =>
      match CallbackQuery.data q with
      | None => Ok ""
      | Some d => list_index (split comma d) 0
      end
  end.

Definition args (self : t) : list string :=
  match query self with
  | Some {| CallbackQuery.data := Some d |} =>
      let args := split comma d in
      if (1 <? List.length args)%nat then drop 1 args else []
  | _ =>
      match CallbackContext.args (ctx self) with
      | Some a => a
      | None => []
      end
  end.

Definition message_id (self : t) : option Z :=
  match message self with
  | None => None
  | Some m => Some (Message.message_id m)
  end.

Definition is_valid_message_type (self : t) : bool :=
  match message self with
  | None => false
  | Some m =>
      opt_str_truthy (Message.text m)
      || seq_truthy (Message.photo m)
      || opt_truthy (Message.voice m)
      || opt_truthy (Message.audio m)
      || opt_truthy (Message.video m)
      || opt_truthy (Message.animation m)
      || opt_truthy (Message.sticker m)
      || opt_truthy (Message.poll m)
  end.

Definition reply_markup (self : t) : option InlineKeyboardMarkup :=
  match message self with
  | None => None
  | Some m => Message.reply_markup m
  end.

(** [message.from_user] is [None] for channel posts: reading an attribute
    of it raises. *)
Definition from_user_attr {A : Type} (f : User.t -> A) (m : Message.t)
  : result (option A) :=
  match Message.from_user m with
  | Some u => Ok (Some (f u))
  | None => Raise AttributeError
  end.

Definition user_id (self : t) : result (option Z) :=
  match query self with
  | Some q => Ok (Some (User.id (CallbackQuery.from_user q)))
  | None =>
      match message self with
      | Some m => from_user_attr User.id m
      | None => Ok None
      end
  end.

Definition user_username (self : t) : result (option (option string)) :=
  match query self with
  | Some q => Ok (Some (User.username (CallbackQuery.from_user q)))
  | None =>
      match message self with
      | Some m => from_user_attr User.username m
      | None => Ok None
      end
  end.

Definition user_name (self : t) : result (option string) :=
  match query self with
  | Some q => Ok (Some (User.name (CallbackQuery.from_user q)))
  | None =>
      match message self with
      | Some m => from_user_attr User.name m
      | None => Ok None
      end
  end.

Definition inline_keyboard (self : t) : option InlineKeyboardMarkup :=
  match message self with
  | None => None
  | Some m => Message.reply_markup m
  end.

Definition query_id (self : t) : option string :=
  match query self with
  | None => None
  | Some q => Some (CallbackQuery.id q)
  end.

Definition query_data (self : t) : option string :=
  match query self with
  | None => None
  | Some q => CallbackQuery.data q
  end.

Definition forward_from_id (self : t) : option Z :=
  match message self with
  | None => None
  | Some m => Message.forward_from_message_id m
  end.

Definition forward_from_chat_id (self : t) : option Z :=
  match message self with
  | None => None
  | Some m =>
      match Message.forward_from_chat m with
      | None => None
      | Some c => Some (Chat.id c)
      end
  end.

Definition is_forwarded_post (cfg : Config.t) (self : t) : bool :=
  bool_decide (chat_id self = Some (Config.community_group_id cfg))
  && bool_decide (forward_from_chat_id self = Some (Config.channel_id cfg)).

Definition from_message (update : Update.t) (ctx : CallbackContext.t) : t :=
  let message :=
    match Update.message update with
    | Some m => Some m
    | None => Update.edited_message update
    end in
  mk ctx (Some update) message None.

(** [update.callback_query.message] raises when the update carries no
    callback query. *)
Definition from_callback (update : Update.t) (ctx : CallbackContext.t)
  : result t :=
  match Update.callback_query update with
  | Some q => Ok (mk ctx (Some update) (CallbackQuery.message q) (Some q))
  | None => Raise AttributeError
  end.

Definition from_job (ctx : CallbackContext.t) : t :=
  mk ctx None None None.
End EventInfo.

(** ** Stored records *)

Module PendingPost.
(** Modelled from the spec: the class [PendingPost] of [spotted.data] is
    not part of the sources at hand.  A pending post holds a reference to
    the original submitted content (the chat and the message id of the
    user's message), the id of the admin-facing copy (group and message)
    and the mapping from admin identity to vote.  The creation timestamp is
    left out. *)
Record t : Type := mk {
  user_chat_id : Z;
  u_message_id : Z;
  admin_group_id : Z;
  g_message_id : Z;
  votes : gmap Z bool
}.

(** Modelled from the spec: [PendingPost.get_list_admin_votes], the votes
    cast so far, per admin. *)
Definition get_list_admin_votes (p : t) : list (Z * bool) :=
  map_to_list (votes p).
End PendingPost.

Module PublishedPost.
(** Modelled from the spec: the class [PublishedPost] of [spotted.data] is
    not part of the sources at hand.  A published post holds the
    destination id, the public message id, the community votes its tally is
    counted from, and the optional credited submitter. *)
Record t : Type := mk {
  channel_id : Z;
  c_message_id : Z;
  votes : gmap Z bool;
  credit : option Z
}.
End PublishedPost.

(** ** Calls on the bot *)

Module Bot.
Inductive Request : Type :=
| send_poll (chat_id : Z) (question : string) (options : list string)
  (type : string) (allows_multiple_answers : bool)
  (correct_option_id : option Z)
  (reply_markup : option InlineKeyboardMarkup)
| send_message (chat_id : Z) (text : string)
  (reply_markup : option InlineKeyboardMarkup)
  (entities : option (list MessageEntity.t))
  (disable_web_page_preview : option bool)
  (reply_to_message_id : option Z)
| copy_message (chat_id from_chat_id message_id : Z)
  (reply_markup : option InlineKeyboardMarkup)
| edit_message_reply_markup (chat_id message_id : option Z)
  (reply_markup : option InlineKeyboardMarkup)
| answer_callback_query (callback_query_id : option string)
  (text : option string).
End Bot.


(** ** The world the handlers run in *)

Record World : Type := mkWorld {
  pending_posts : list PendingPost.t;      (* the store's pending posts *)
  published_posts : list PublishedPost.t;  (* the store's published posts *)
  bot_data : gmap string Z;                (* context.bot_data *)
  user_data : gmap string bool;            (* context.user_data *)
  calls : list Bot.Request                     (* the calls made on the bot *)
}.

Definition set_pending_posts (l : list PendingPost.t) (w : World) : World :=
  mkWorld l (published_posts w) (bot_data w) (user_data w) (calls w).

Definition set_published_posts (l : list PublishedPost.t) (w : World) : World :=
  mkWorld (pending_posts w) l (bot_data w) (user_data w) (calls w).

Definition set_bot_data (d : gmap string Z) (w : World) : World :=
  mkWorld (pending_posts w) (published_posts w) d (user_data w) (calls w).

Definition set_calls (l : list Bot.Request) (w : World) : World :=
  mkWorld (pending_posts w) (published_posts w) (bot_data w) (user_data w) l.

(** A computation either returns or raises, and leaves a world behind in
    both cases: what was done before an exception stays done. *)
Definition M (A : Type) : Type := World -> result A * World.

Definition ret {A : Type} (a : A) : M A := fun w => (Ok a, w).

Definition raise {A : Type} (e : exn) : M A := fun w => (Raise e, w).

Definition bind {A B : Type} (m : M A) (k : A -> M B) : M B :=
  fun w =>
    match m w with
    | (Ok a, w') => k a w'
    | (Raise e, w') => (Raise e, w')
    end.

Notation "x <- m ;; k" := (bind m (fun x => k))
  (at level 100, m at next level, right associativity).

Definition lift {A : Type} (r : result A) : M A := fun w => (r, w).

(** Reading an attribute of an object that may be [None]. *)
Definition getattr {A : Type} (o : option A) : M A :=
  match o with
  | Some a => ret a
  | None => raise AttributeError
  end.

(** [try: m / except BadRequest: (log)]: [None] when the exception was
    caught.  Logging is not modelled. *)
Definition try_BadRequest {A : Type} (m : M A) : M (option A) :=
  fun w =>
    match m w with
    | (Ok a, w') => (Ok (Some a), w')
    | (Raise BadRequest, w') => (Ok None, w')
    | (Raise e, w') => (Raise e, w')
    end.

(** [d.get(k, default)] on [user_data]. *)
Definition user_data_get (k : string) (dflt : bool) : M bool :=
  fun w => (Ok (default dflt (user_data w !! k)), w).

(** [d[k] = v] on [bot_data]. *)
Definition bot_data_set (k : string) (v : Z) : M unit :=
  fun w => (Ok tt, set_bot_data (<[k := v]> (bot_data w)) w).

(** [d.pop(k, default)] on [bot_data]. *)
Definition bot_data_pop (k : string) (dflt : Z) : M Z :=
  fun w => (Ok (default dflt (bot_data w !! k)),
            set_bot_data (delete k (bot_data w)) w).

(** [l.sort(key=key)]: a stable sort on an integer key. *)
Fixpoint insert_by {A : Type} (key : A -> Z) (x : A) (l : list A) : list A :=
  match l with
  | [] => [x]
  | y :: l' => if key x <=? key y then x :: y :: l' else y :: insert_by key x l'
  end.

Definition sort_by {A : Type} (key : A -> Z) (l : list A) : list A :=
  foldr (insert_by key) [] l.

Definition NEWLINE : string := String (ascii_of_nat 10) EmptyString.

Section Handlers.

(** The configuration of the deployment. *)
Variable cfg : Config.t.

(** The transport: what the bot answers to a call, given the calls made
    before it: the id of the message the call produced, or an error. *)
Variable bot : list Bot.Request -> Bot.Request -> result Z.

(** The keyboards of [spotted.utils.keyboard_util], which is not part of
    the sources at hand. *)
Variable get_approve_kb : InlineKeyboardMarkup.
Variable get_published_post_kb : InlineKeyboardMarkup.
Variable get_post_outcome_kb :
  list (Z * bool) -> option string -> result InlineKeyboardMarkup.

(** [User(user_id).get_user_sign(bot)] of [spotted.data], likewise. *)
Variable get_user_sign : Z -> result string.

(** The backup job of [modules.handlers.job_handlers], likewise. *)
Variable db_backup_job : CallbackContext.t -> M unit.

(** A call on the bot: recorded, then answered by the transport. *)
Definition call (r : Bot.Request) : M Z :=
  fun w => (bot (calls w) r, set_calls (calls w ++ [r]) w).

(** Modelled from the spec: [PendingPost.create] is not part of the sources
    at hand.  It creates the pending post of a user message and of its
    admin-facing copy, with an empty vote map. *)
Definition PendingPost_create (user_message : Message.t)
    (admin_group_id g_message_id : Z) : M unit :=
  fun w =>
    let p := PendingPost.mk (Message.chat_id user_message)
               (Message.message_id user_message)
               admin_group_id g_message_id ∅ in
    (Ok tt, set_pending_posts (pending_posts w ++ [p]) w).

(** Modelled from the spec: [PendingPost.get_all] is not part of the
    sources at hand.  It returns the pending posts of an admin
    destination. *)
Definition PendingPost_get_all (admin_group_id : Z) : M (list PendingPost.t) :=
  fun w =>
    (Ok (filter (fun p => PendingPost.admin_group_id p = admin_group_id)
           (pending_posts w)), w).

(** Modelled from the spec: [PublishedPost.create] is not part of the
    sources at hand.  It creates the published post of a destination and a
    message, with an empty tally and no credited submitter. *)
Definition PublishedPost_create (c_message_id channel_id : Z) : M unit :=
  fun w =>
    let p := PublishedPost.mk channel_id c_message_id ∅ None in
    (Ok tt, set_published_posts (published_posts w ++ [p]) w).

Definition answer_callback_query (self : EventInfo.t) (text : option string)
  : M unit :=
  r <- try_BadRequest
         (call (Bot.answer_callback_query (EventInfo.query_id self) text)) ;;
  ret tt.


Definition send_post_to_admins (self : EventInfo.t) : M bool :=
  outer <- getattr (EventInfo.message self) ;;
  let message := Message.reply_to_message outer in
  let admin_group_id := Config.admin_group_id cfg in
  message <- getattr message ;;
  let poll := Message.poll message in
  sent <- try_BadRequest
    (match poll with
     | Some poll =>
         call (Bot.send_poll admin_group_id
                 (Poll.question poll)
                 (map PollOption.text (Poll.options poll))
                 (Poll.type poll)
                 (Poll.allows_multiple_answers poll)
                 (Poll.correct_option_id poll)
                 (Some get_approve_kb))
     | None =>
         if opt_str_truthy (Message.text message)
            && seq_truthy (Message.entities message)
         then
           show_preview <- user_data_get "show_preview" true ;;
           call (Bot.send_message admin_group_id
                   (default "" (Message.text message))
                   (Some get_approve_kb)
                   (Some (Message.entities message))
                   (Some (negb show_preview))
                   None)
         else
           call (Bot.copy_message admin_group_id
                   (Message.chat_id message)
                   (Message.message_id message)
                   (Some get_approve_kb))
     end) ;;
  match sent with
  | None => ret false
  | Some g_message_id =>
      _ <- PendingPost_create message admin_group_id g_message_id ;;
      ret true
  end.

Definition send_post_to_channel (self : EventInfo.t) (user_id : Z) : M unit :=
  let message := EventInfo.message self in
  let channel_id := Config.channel_id cfg in
  message <- getattr message ;;
  let poll := Message.poll message in
  let reply_markup :=
    if negb (Config.comments cfg) then Some get_published_post_kb else None in
  c_message_id <-
    (match poll with
     | Some poll =>
         call (Bot.send_poll channel_id
                 (Poll.question poll)
                 (map PollOption.text (Poll.options poll))
                 (Poll.type poll)
                 (Poll.allows_multiple_answers poll)
                 (Poll.correct_option_id poll)
                 reply_markup)
     | None =>
         call (Bot.copy_message channel_id
                 (Message.chat_id message)
                 (Message.message_id message)
                 reply_markup)
     end) ;;
  if negb (Config.comments cfg) then
    PublishedPost_create c_message_id channel_id
  else
    bot_data_set (pretty channel_id +:+ "," +:+ pretty c_message_id) user_id.

Definition send_post_to_channel_group (self : EventInfo.t) : M unit :=
  let message := EventInfo.message self in
  let community_group_id := Config.community_group_id cfg in
  user_id <- bot_data_pop
               (fmt_opt_int (EventInfo.forward_from_chat_id self) +:+ ","
                +:+ fmt_opt_int (EventInfo.forward_from_id self)) (-1) ;;
  sign <- lift (get_user_sign user_id) ;;
  message <- getattr message ;;
  post_message_id <-
    call (Bot.send_message community_group_id
            ("by: " +:+ sign)
            (Some get_published_post_kb)
            None None
            (Some (Message.message_id message))) ;;
  PublishedPost_create post_message_id community_group_id.

Definition show_admins_votes (self : EventInfo.t)
    (pending_post : PendingPost.t) (reason : option string) : M unit :=
  inline_keyboard <-
    lift (get_post_outcome_kb
            (PendingPost.get_list_admin_votes pending_post) reason) ;;
  _ <- call (Bot.edit_message_reply_markup
               (Some (PendingPost.admin_group_id pending_post))
               (Some (PendingPost.g_message_id pending_post))
               (Some inline_keyboard)) ;;
  remaining_pending_posts <-
    PendingPost_get_all (PendingPost.admin_group_id pending_post) ;;
  let remaining_pending_posts :=
    filter (fun post => PendingPost.g_message_id post
                        ≠ PendingPost.g_message_id pending_post)
      remaining_pending_posts in
  let remaining_pending_posts :=
    sort_by PendingPost.g_message_id remaining_pending_posts in
  let remaining_pending_posts_count := length remaining_pending_posts in
  if (0 <? remaining_pending_posts_count)%nat then
    let text := "⬆️ Post in attesa" +:+ NEWLINE +:+ "Rimangono "
                +:+ pretty remaining_pending_posts_count
                +:+ " post in attesa" in
    oldest_pending_post <- lift (list_index remaining_pending_posts 0) ;;
    _ <- call (Bot.send_message (PendingPost.admin_group_id pending_post)
                 text None None None
                 (Some (PendingPost.g_message_id oldest_pending_post))) ;;
    ret tt
  else ret tt.

Definition db_backup_cmd (update : Update.t) (context : CallbackContext.t)
  : M unit :=
  let info := EventInfo.from_message update context in
  if bool_decide (EventInfo.chat_id info = Some (Config.group_id cfg))
  then db_backup_job context
  else ret tt.

End Handlers.

(** * Notions the properties are stated with *)

(** Whether a string contains the character [c]. *)
Fixpoint has_char (c : Ascii.ascii) (s : string) : bool :=
  match s with
  | EmptyString => false
  | String a s' => Ascii.eqb a c || has_char c s'
  end.

(** The specification's reading of the action key: the substring before the
    first comma, the whole string when there is no comma. *)
Fixpoint before_first_comma (s : string) : string :=
  match s with
  | EmptyString => EmptyString
  | String a s' =>
      if Ascii.eqb a comma then EmptyString
      else String a (before_first_comma s')
  end.

(** What follows the first comma, when there is one. *)
Fixpoint after_first_comma (s : string) : option string :=
  match s with
  | EmptyString => None
  | String a s' => if Ascii.eqb a comma then Some s' else after_first_comma s'
  end.

(** The specification's reading of the positional arguments: the
    comma-separated fields after the first one. *)
Definition fields_after_first (s : string) : list string :=
  match after_first_comma s with
  | Some rest => split comma rest
  | None => []
  end.

(** The eight kinds of content a submission can be. *)
Inductive Kind : Type :=
| KText | KPhoto | KVoice | KAudio | KVideo | KAnimation | KSticker | KPoll.

(** A message is of a kind when it carries content of that kind: a text
    that is not empty, at least one photo size, or a voice, audio, video,
    animation, sticker or poll object. *)
Definition of_kind (k : Kind) (m : Message.t) : Prop :=
  match k with
  | KText => exists s, Message.text m = Some s ∧ s ≠ EmptyString
  | KPhoto => Message.photo m ≠ []
  | KVoice => Message.voice m ≠ None
  | KAudio => Message.audio m ≠ None
  | KVideo => Message.video m ≠ None
  | KAnimation => Message.animation m ≠ None
  | KSticker => Message.sticker m ≠ None
  | KPoll => Message.poll m ≠ None
  end.

(** The message is of one kind and of no other. *)
Definition exactly_one_kind (m : Message.t) : Prop :=
  exists k, of_kind k m ∧ forall k', of_kind k' m -> k' = k.

(** The message is of no two kinds at once. *)
Definition at_most_one_kind (m : Message.t) : Prop :=
  forall k k', of_kind k m -> of_kind k' m -> k = k'.

(** The chat an update comes from: that of its message or, failing that, of
    its edited message. *)
Definition update_chat_id (update : Update.t) : option Z :=
  match Update.message update with
  | Some m => Some (Message.chat_id m)
  | None =>
      match Update.edited_message update with
      | Some m => Some (Message.chat_id m)
      | None => None
      end
  end.

(** What a poll shows before anyone votes: its question, the texts of its
    options, its type, whether several answers are allowed and the id of the
    correct option.  The votes counted per option, the total of voters,
    whether the poll is anonymous or closed and the id of the poll are not
    part of it. *)
Definition poll_public (p : Poll.t)
  : string * list string * string * bool * option Z :=
  (Poll.question p, map PollOption.text (Poll.options p), Poll.type p,
   Poll.allows_multiple_answers p, Poll.correct_option_id p).

(** The poll a destination receives, from the public part of the original. *)
Definition poll_copy (chat_id : Z)
    (public : string * list string * string * bool * option Z)
    (reply_markup : option InlineKeyboardMarkup) : Bot.Request :=
  let '(question, options, type, multiple, correct) := public in
  Bot.send_poll chat_id question options type multiple correct reply_markup.

(** The key of a credit record in [bot_data]: the destination and the
    message, in decimal, separated by a comma. *)
Definition credit_key (channel_id c_message_id : option Z) : string :=
  fmt_opt_int channel_id +:+ "," +:+ fmt_opt_int c_message_id.

Definition reminder_text (count : nat) : string :=
  "⬆️ Post in attesa" +:+ NEWLINE +:+ "Rimangono " +:+ pretty count
  +:+ " post in attesa".

(** The posts still pending in the admin destination of [finalized]:
    those of the same destination, [finalized] excluded. *)
Definition remaining_after (finalized : PendingPost.t) (w : World)
  : list PendingPost.t :=
  filter (fun p => PendingPost.g_message_id p
                   ≠ PendingPost.g_message_id finalized
                   ∧ PendingPost.admin_group_id p
                     = PendingPost.admin_group_id finalized)
    (pending_posts w).

#[global] Instance PendingPost_eq_dec : EqDecision PendingPost.t.
Proof. solve_decision. Defined.

(** The order a sort by [key] puts a list in. *)
Definition key_le {A : Type} (key : A -> Z) (a b : A) : Prop :=
  key a <= key b.

(** * Sample data *)

Definition text_message (message_id : Z) (chat : Chat.t)
    (from_user : option User.t) (text : string) : Message.t :=
  Message.mk message_id chat from_user (Some text) [] [] None None None None
    None None None None None None.

(** An event made of a callback query carrying [d]. *)
Definition callback_event (d : option string) : EventInfo.t :=
  EventInfo.mk (CallbackContext.mk None) None None
    (Some (CallbackQuery.mk "q" (User.mk 7 None "Ann" None) d None)).

Definition sample_cfg : Config.t :=
  Config.mk (-1001) (-1001) (-2002) (-3003) false.

Definition sample_cfg_comments : Config.t :=
  Config.mk (-1001) (-1001) (-2002) (-3003) true.

Definition empty_world : World := mkWorld [] [] ∅ ∅ [].

(** A backup job that can be observed: it tells the chat it was given. *)
Definition noisy_backup_job (chat_id : Z) (_ : CallbackContext.t) : M unit :=
  fun w =>
    (Ok tt,
     set_calls
       (calls w ++ [Bot.send_message chat_id "backup" None None None None]) w).

Definition command_from (chat_id : Z) : Update.t :=
  Update.mk
    (Some (text_message 1 (Chat.mk chat_id "supergroup") None "/db_backup"))
    None None.

Definition sample_kb (data : string) : InlineKeyboardMarkup :=
  [[InlineKeyboardButton.mk data (Some data)]].

(** A transport that refuses polls without a question, as Telegram does, and
    numbers the messages it produces. *)
Definition sample_bot (sent : list Bot.Request) (r : Bot.Request) : result Z :=
  match r with
  | Bot.send_poll _ q _ _ _ _ _ =>
      if str_truthy q then Ok (500 + Z.of_nat (length sent))
      else Raise BadRequest
  | _ => Ok (500 + Z.of_nat (length sent))
  end.

Definition poll_message (message_id : Z) (chat : Chat.t) (p : Poll.t)
  : Message.t :=
  Message.mk message_id chat None None [] [] None None None None None
    (Some p) None None None None.

(** The message a user confirms with: a reply to the submitted message. *)
Definition confirmation_of (submitted : Message.t) : Message.t :=
  Message.mk (Message.message_id submitted + 1) (Message.chat submitted)
    None (Some "Confermi?") [] [] None None None None None None None
    (Some submitted) None None.

Definition event_of (m : Message.t) : EventInfo.t :=
  EventInfo.mk (CallbackContext.mk None) None (Some m) None.

Definition sample_spot : Message.t :=
  text_message 10 (Chat.mk 77 "private") (Some (User.mk 77 None "Eve" None))
    "ciao".

Definition sample_poll (question : string) (votes_a votes_b : Z) : Poll.t :=
  Poll.mk "poll-1" question
    [PollOption.mk "a" votes_a; PollOption.mk "b" votes_b]
    (votes_a + votes_b) false false "regular" false None.

Definition sample_sign (user_id : Z) : result string :=
  if user_id =? -1 then Ok "anonimo" else Ok ("@user" +:+ pretty user_id).

(** The channel post, as Telegram forwards it to the community group. *)
Definition forwarded_post (message_id c_message_id : Z) : Message.t :=
  Message.mk message_id (Chat.mk (-3003) "supergroup") None (Some "ciao")
    [] [] None None None None None None None None
    (Some c_message_id) (Some (Chat.mk (-2002) "channel")).

Definition credited_world : World :=
  mkWorld [] [] {[ "-2002,500" := 77 ]} ∅ [].

Definition sample_outcome_kb (votes : list (Z * bool)) (reason : option string)
  : result InlineKeyboardMarkup :=
  Ok [[InlineKeyboardButton.mk (default "ok" reason) None]].

Definition pending (admin_group_id g_message_id : Z) : PendingPost.t :=
  PendingPost.mk 77 g_message_id admin_group_id g_message_id ∅.

(** Four posts pending in the admin group, one in another group. *)
Definition queue_world : World :=
  mkWorld
    [pending (-1001) 40; pending (-1001) 25; pending (-9) 3;
     pending (-1001) 31; pending (-1001) 58]
    [] ∅ ∅ [].

(** A message with both a text and a photo. *)
Definition text_and_photo : Message.t :=
  Message.mk 14 (Chat.mk 77 "private") (Some (User.mk 77 None "Eve" None))
    (Some "guarda") [] [mkFileRef "photo-1"] None None None None None None
    None None None None.

(** A text with a link, as the entity of its first four characters. *)
Definition link_spot : Message.t :=
  Message.mk 12 (Chat.mk 77 "private") (Some (User.mk 77 None "Eve" None))
    (Some "sito bello")
    [MessageEntity.mk "text_link" 0 4 (Some "https://example.org") None]
    [] None None None None None None None None None None.

(** A world where the user asked for no link preview. *)
Definition no_preview_world : World :=
  mkWorld [] [] ∅ {[ "show_preview" := false ]} [].

(** A transport out of order: every call fails. *)
Definition failing_bot (e : exn) (sent : list Bot.Request) (r : Bot.Request)
  : result Z :=
  Raise e.

(** * Properties *)

(** ** Callback data *)

Lemma split_not_nil sep s : split sep s ≠ [].
Proof.
  destruct s as [|c s]; simpl; [done|].
  destruct (Ascii.eqb c sep); [done|].
  by destruct (split sep s).
Qed.

Lemma split_length_pos sep s : (0 < length (split sep s))%nat.
Proof.
  pose proof (split_not_nil sep s) as H.
  destruct (split sep s); simpl; [done | lia].
Qed.

Lemma join_cons_char sep c hd tl :
  join sep (String c hd :: tl) = String c (join sep (hd :: tl)).
Proof. by destruct tl. Qed.

Lemma join_split s : join "," (split comma s) = s.
Proof.
  induction s as [|c s IH]; simpl; [done|].
  destruct (Ascii.eqb_spec c comma) as [->|Hne].
  - pose proof (split_not_nil comma s) as Hnil.
    destruct (split comma s) as [|hd tl] eqn:E; [done|].
    change (join "," (EmptyString :: hd :: tl))
      with (String comma (join "," (hd :: tl))).
    by rewrite IH.
  - pose proof (split_not_nil comma s) as Hnil.
    destruct (split comma s) as [|hd tl] eqn:E; [done|].
    by rewrite join_cons_char, IH.
Qed.

Lemma split_fields_no_sep sep s :
  Forall (fun f => has_char sep f = false) (split sep s).
Proof.
  induction s as [|c s IH]; simpl.
  - by constructor.
  - destruct (Ascii.eqb c sep) eqn:Ec.
    + by constructor.
    + destruct (split sep s) as [|hd tl];
        [by repeat constructor; simpl; rewrite Ec|].
      inversion IH as [|? ? Hhd Htl]; subst.
      constructor; [|done]. simpl. by rewrite Ec, Hhd.
Qed.

Lemma split_head s : split comma s !! 0%nat = Some (before_first_comma s).
Proof.
  induction s as [|c s IH]; simpl; [done|].
  destruct (Ascii.eqb c comma); [done|].
  destruct (split comma s) as [|hd tl]; simpl in *; congruence.
Qed.

Lemma split_tail s : drop 1 (split comma s) = fields_after_first s.
Proof.
  unfold fields_after_first.
  induction s as [|c s IH]; simpl; [done|].
  destruct (Ascii.eqb c comma); [done|].
  pose proof (split_not_nil comma s) as Hnil.
  destruct (split comma s) as [|hd tl]; [done|].
  exact IH.
Qed.

Lemma args_of_split (l : list string) :
  (if (1 <? length l)%nat then drop 1 l else []) = drop 1 l.
Proof. by destruct l as [|x [|y l]]. Qed.

(** The fields of a string are determined by the string: two lists of
    comma-free fields that join to the same string are equal. *)
Lemma join_inj (l1 l2 : list string) :
  l1 ≠ [] -> l2 ≠ [] ->
  Forall (fun f => has_char comma f = false) l1 ->
  Forall (fun f => has_char comma f = false) l2 ->
  join "," l1 = join "," l2 -> l1 = l2.
Proof.
  intros H1 H2 F1 F2 E.
  rewrite <- (join_split (join "," l1)) in E.
  assert (Hsplit : forall l, l ≠ [] ->
            Forall (fun f => has_char comma f = false) l ->
            split comma (join "," l) = l).
  { clear. induction l as [|x l IH]; [done|]. intros _ F.
    inversion F as [|? ? Hx Hl]; subst.
    destruct l as [|y l].
    - simpl. clear IH F Hl. induction x as [|c x IHx]; simpl in *; [done|].
      apply orb_false_iff in Hx as [Hc Hx]. rewrite Hc.
      by rewrite (IHx Hx).
    - specialize (IH ltac:(done) Hl).
      change (join "," (x :: y :: l)) with (x +:+ "," +:+ join "," (y :: l)).
      remember (join "," (y :: l)) as r eqn:Er. clear Er F Hl.
      induction x as [|c x IHx]; simpl in *.
      + change (EmptyString +:+ r) with r. by rewrite IH.
      + apply orb_false_iff in Hx as [Hc Hx]. rewrite Hc.
        by rewrite (IHx Hx). }
  rewrite <- (Hsplit l1 H1 F1), <- (Hsplit l2 H2 F2).
  rewrite join_split in E. by rewrite E.
Qed.

(** C7. Parsing callback data never raises.  With data [d], the action key
    is the substring of [d] before its first comma (all of [d] when it has
    none) and the arguments are the comma-separated fields after the first
    one (none when there is no comma): key and arguments contain no comma and
    joined by commas they give [d] back.  Without a callback query, or with a
    query without data, the key is the empty string and the arguments are
    those of the context, or the empty list. *)
Theorem callback_data_parsing
    (ctx : CallbackContext.t) (update : option Update.t)
    (message : option Message.t) (query : option CallbackQuery.t) :
  let self := EventInfo.mk ctx update message query in
  match EventInfo.query_data self with
  | Some d =>
      EventInfo.callback_key self = Ok (before_first_comma d)
      ∧ EventInfo.args self = fields_after_first d
      ∧ join "," (before_first_comma d :: EventInfo.args self) = d
      ∧ Forall (fun f => has_char comma f = false)
          (before_first_comma d :: EventInfo.args self)
  | None =>
      EventInfo.callback_key self = Ok ""
      ∧ EventInfo.args self = default [] (CallbackContext.args ctx)
  end.
Proof.
  cbv zeta.
  destruct query as [[qid qfrom [d|] qmsg]|];
    unfold EventInfo.query_data, EventInfo.callback_key, EventInfo.args,
      list_index;
    cbn [EventInfo.query EventInfo.ctx CallbackQuery.data].
  - rewrite split_head, args_of_split, split_tail.
    assert (E : before_first_comma d :: fields_after_first d = split comma d).
    { rewrite <- split_tail.
      pose proof (split_head d) as Hh.
      destruct (split comma d) as [|hd tl]; [done|].
      by injection Hh as ->. }
    split_and!; [done | done | | rewrite E; apply split_fields_no_sep].
    rewrite E. apply join_split.
  - by destruct (CallbackContext.args ctx).
  - by destruct (CallbackContext.args ctx).
Qed.

Example callback_vote :
  EventInfo.callback_key (callback_event (Some "vote,12,yes")) = Ok "vote"
  ∧ EventInfo.args (callback_event (Some "vote,12,yes")) = ["12"; "yes"].
Proof. split; reflexivity. Qed.

Example callback_no_comma :
  EventInfo.callback_key (callback_event (Some "approve")) = Ok "approve"
  ∧ EventInfo.args (callback_event (Some "approve")) = [].
Proof. split; reflexivity. Qed.

Example callback_empty_fields :
  EventInfo.callback_key (callback_event (Some ",a,")) = Ok ""
  ∧ EventInfo.args (callback_event (Some ",a,")) = ["a"; ""].
Proof. split; reflexivity. Qed.

Example callback_no_data :
  EventInfo.callback_key (callback_event None) = Ok ""
  ∧ EventInfo.args (callback_event None) = [].
Proof. split; reflexivity. Qed.

(** ** Supported content *)

Lemma opt_str_truthy_true (o : option string) :
  opt_str_truthy o = true <-> exists s, o = Some s ∧ s ≠ EmptyString.
Proof.
  destruct o as [[|c s]|]; simpl; split; try done.
  - intros (s & [= <-] & Hne). by destruct Hne.
  - intros _. by eexists.
  - by intros (s & [=] & _).
Qed.

Lemma seq_truthy_true {A : Type} (l : list A) :
  seq_truthy l = true <-> l ≠ [].
Proof. destruct l; simpl; split; done. Qed.

Lemma opt_truthy_true {A : Type} (o : option A) :
  opt_truthy o = true <-> o ≠ None.
Proof. destruct o; simpl; split; done. Qed.

Lemma is_valid_message_type_some_kind
    (ctx : CallbackContext.t) (update : option Update.t)
    (m : Message.t) (query : option CallbackQuery.t) :
  EventInfo.is_valid_message_type (EventInfo.mk ctx update (Some m) query)
  = true
  <-> exists k, of_kind k m.
Proof.
  unfold EventInfo.is_valid_message_type; cbn [EventInfo.message].
  rewrite !orb_true_iff, opt_str_truthy_true, seq_truthy_true,
    !opt_truthy_true.
  split.
  - intros [[[[[[[H|H]|H]|H]|H]|H]|H]|H];
      [ exists KText | exists KPhoto | exists KVoice | exists KAudio
      | exists KVideo | exists KAnimation | exists KSticker | exists KPoll ];
      exact H.
  - intros [k H]. destruct k; simpl in H; tauto.
Qed.

(** C6, as amended. A message is accepted as a valid submission exactly
    when it is of at least one of the eight supported kinds: a text that is
    not empty, a photo, voice, audio, video, animation, sticker or poll.  A
    message of none of these kinds is rejected, and so is an absent message.
    A message of several kinds is accepted as well; among the messages of at
    most one kind, the accepted ones are those of exactly one. *)
Theorem valid_message_type_iff_some_kind
    (ctx : CallbackContext.t) (update : option Update.t)
    (message : option Message.t) (query : option CallbackQuery.t) :
  let self := EventInfo.mk ctx update message query in
  match message with
  | Some m =>
      (EventInfo.is_valid_message_type self = true
         <-> exists k, of_kind k m)
      ∧ (EventInfo.is_valid_message_type self = false
         <-> forall k, ¬ of_kind k m)
      ∧ (at_most_one_kind m ->
         (EventInfo.is_valid_message_type self = true
            <-> exactly_one_kind m))
  | None => EventInfo.is_valid_message_type self = false
  end.
Proof.
  cbv zeta. destruct message as [m|]; [|done].
  pose proof (is_valid_message_type_some_kind ctx update m query) as Hiff.
  split_and!.
  - exact Hiff.
  - rewrite <- not_true_iff_false, Hiff. split.
    + intros Hnone k Hk. apply Hnone. by exists k.
    + intros Hall [k Hk]. by apply (Hall k).
  - intros Hmost. rewrite Hiff. split.
    + intros [k Hk]. exists k. split; [done|].
      intros k' Hk'. by apply Hmost.
    + intros (k & Hk & _). by exists k.
Qed.

(** C6, as stated, fails: a message with both a text and a photo is
    accepted, and it is not of exactly one kind. *)
Lemma valid_message_type_not_exactly_one_kind :
  ¬ (EventInfo.is_valid_message_type (event_of text_and_photo) = true
     <-> exactly_one_kind text_and_photo).
Proof.
  intros [Hvalid _].
  destruct (Hvalid eq_refl) as (k & _ & Honly).
  assert (Htext : of_kind KText text_and_photo).
  { simpl. by exists "guarda". }
  assert (Hphoto : of_kind KPhoto text_and_photo) by done.
  pose proof (Honly KText Htext) as E1.
  pose proof (Honly KPhoto Hphoto) as E2.
  congruence.
Qed.

(** A text alone is of exactly one kind, and accepted; a message that
    carries nothing of the eight kinds (a location, say) is rejected. *)
Example text_is_valid :
  EventInfo.is_valid_message_type (event_of sample_spot) = true
  ∧ exactly_one_kind sample_spot.
Proof.
  split; [reflexivity|]. exists KText. split.
  - simpl. by exists "ciao".
  - intros k Hk. destruct k; simpl in Hk; try done.
Qed.

Example empty_message_is_invalid :
  let m :=
    Message.mk 15 (Chat.mk 77 "private") None None [] [] None None None
      None None None None None None None in
  EventInfo.is_valid_message_type (event_of m) = false
  ∧ forall k, ¬ of_kind k m.
Proof.
  cbv zeta. split; [reflexivity|].
  intros k Hk. destruct k; simpl in Hk; try done.
  by destruct Hk as (s & [=] & _).
Qed.

(** ** Conversation states *)

(** C9. The seven conversation states have pairwise distinct codes, and
    [end] is the only state with a negative code, which is [-1]. *)
Theorem STATE_codes_distinct_end_negative :
  map fst STATE
    = ["posting"; "confirm"; "reporting_spot"; "reporting_user";
       "reporting_user_reason"; "sending_user_report"; "end"]
  ∧ NoDup (map fst STATE)
  ∧ NoDup (map snd STATE)
  ∧ dict_get STATE "end" = Some (-1)
  ∧ Forall (fun kv => snd kv < 0 <-> fst kv = "end") STATE.
Proof.
  split_and!.
  - reflexivity.
  - apply (bool_decide_unpack _). by vm_compute.
  - apply (bool_decide_unpack _). by vm_compute.
  - reflexivity.
  - unfold STATE. repeat constructor; simpl; try lia; try discriminate; done.
Qed.

(** ** Who caused the event *)

(** C10. When an event carries both a callback query and a message, the
    identity accessors return the identity of the user the query comes from,
    whatever the sender of the message is; when it carries neither, they
    return no identity. *)
Theorem user_identity_is_query_user
    (ctx : CallbackContext.t) (update : option Update.t)
    (m : Message.t) (q : CallbackQuery.t) :
  let pressed := EventInfo.mk ctx update (Some m) (Some q) in
  let bare := EventInfo.mk ctx update None None in
  EventInfo.user_id pressed = Ok (Some (User.id (CallbackQuery.from_user q)))
  ∧ EventInfo.user_username pressed
    = Ok (Some (User.username (CallbackQuery.from_user q)))
  ∧ EventInfo.user_name pressed
    = Ok (Some (User.name (CallbackQuery.from_user q)))
  ∧ EventInfo.user_id bare = Ok None
  ∧ EventInfo.user_username bare = Ok None
  ∧ EventInfo.user_name bare = Ok None.
Proof. cbv zeta. split_and!; reflexivity. Qed.

(** Without a query, the accessors fall back on the sender of the message. *)
Lemma user_id_of_message
    (ctx : CallbackContext.t) (update : option Update.t)
    (m : Message.t) (u : User.t) :
  Message.from_user m = Some u ->
  EventInfo.user_id (EventInfo.mk ctx update (Some m) None)
  = Ok (Some (User.id u)).
Proof.
  intros H. unfold EventInfo.user_id, EventInfo.from_user_attr; simpl.
  by rewrite H.
Qed.

(** An admin presses a button under a message written by someone else. *)
Example button_pressed_by_admin :
  let author := User.mk 11 (Some "author") "Au" None in
  let admin := User.mk 42 None "Ad" (Some "Min") in
  let m := text_message 5 (Chat.mk (-100) "group") (Some author) "spot" in
  let q := CallbackQuery.mk "q1" admin (Some "approve_yes") (Some m) in
  let self := EventInfo.mk (CallbackContext.mk None) None (Some m) (Some q) in
  EventInfo.user_id self = Ok (Some 42)
  ∧ EventInfo.user_username self = Ok (Some None)
  ∧ EventInfo.user_name self = Ok (Some "Ad Min").
Proof. cbv zeta. split_and!; reflexivity. Qed.

(** ** The backup command *)

(** C8. The backup command runs the backup job when the chat of the event
    is the configured group ([group_id], the admin group), and only then:
    from any other chat it does nothing at all, it makes no call on the bot
    and leaves the world as it is. *)
Theorem db_backup_cmd_group_gated
    (cfg : Config.t) (db_backup_job : CallbackContext.t -> M unit)
    (update : Update.t) (context : CallbackContext.t) (w : World) :
  (update_chat_id update = Some (Config.group_id cfg)
   ∧ db_backup_cmd cfg db_backup_job update context w
     = db_backup_job context w)
  ∨ (update_chat_id update ≠ Some (Config.group_id cfg)
     ∧ db_backup_cmd cfg db_backup_job update context w = (Ok tt, w)).
Proof.
  assert (E : EventInfo.chat_id (EventInfo.from_message update context)
              = update_chat_id update).
  { unfold EventInfo.chat_id, EventInfo.from_message, update_chat_id; simpl.
    by destruct (Update.message update). }
  unfold db_backup_cmd. rewrite E.
  destruct (decide (update_chat_id update = Some (Config.group_id cfg)))
    as [Heq|Hne].
  - left. by rewrite bool_decide_eq_true_2.
  - right. by rewrite bool_decide_eq_false_2.
Qed.

Example db_backup_from_admin_group :
  calls (db_backup_cmd sample_cfg (noisy_backup_job (-1001))
           (command_from (-1001)) (CallbackContext.mk None) empty_world).2
  = [Bot.send_message (-1001) "backup" None None None None].
Proof. reflexivity. Qed.

Example db_backup_from_elsewhere :
  db_backup_cmd sample_cfg (noisy_backup_job (-1001))
    (command_from 77) (CallbackContext.mk None) empty_world
  = (Ok tt, empty_world).
Proof. reflexivity. Qed.

(** ** Forwarding a submission to the admins *)



(** A text submission is copied to the admins and becomes a pending post. *)
Example spot_forwarded :
  send_post_to_admins sample_cfg sample_bot (sample_kb "approve")
    (event_of (confirmation_of sample_spot)) empty_world
  = (Ok true,
     mkWorld [PendingPost.mk 77 10 (-1001) 500 ∅] [] ∅ ∅
       [Bot.copy_message (-1001) 77 10 (Some (sample_kb "approve"))]).
Proof. reflexivity. Qed.

(** A poll the transport refuses is reported and leaves no pending post. *)
Example refused_poll_not_pending :
  send_post_to_admins sample_cfg sample_bot (sample_kb "approve")
    (event_of (confirmation_of
                 (poll_message 10 (Chat.mk 77 "private") (sample_poll "" 0 0))))
    empty_world
  = (Ok false,
     mkWorld [] [] ∅ ∅
       [Bot.send_poll (-1001) "" ["a"; "b"] "regular" false None
          (Some (sample_kb "approve"))]).
Proof. reflexivity. Qed.

(** Without a message to forward, the operation raises before any call. *)
Example nothing_to_forward :
  send_post_to_admins sample_cfg sample_bot (sample_kb "approve")
    (event_of sample_spot) empty_world
  = (Raise AttributeError, empty_world).
Proof. reflexivity. Qed.

(** ** Copies of polls *)

Lemma send_post_to_admins_poll
    (cfg : Config.t) (bot : list Bot.Request -> Bot.Request -> result Z)
    (get_approve_kb : InlineKeyboardMarkup)
    (self : EventInfo.t) (outer message : Message.t) (p : Poll.t) (w : World) :
  EventInfo.message self = Some outer ->
  Message.reply_to_message outer = Some message ->
  Message.poll message = Some p ->
  calls (send_post_to_admins cfg bot get_approve_kb self w).2
  = calls w ++ [poll_copy (Config.admin_group_id cfg) (poll_public p)
                  (Some get_approve_kb)].
Proof.
  intros Hm Hr Hp.
  unfold send_post_to_admins, bind, getattr, ret, try_BadRequest, call,
    PendingPost_create.
  rewrite Hm; cbn beta iota. rewrite Hr; cbn beta iota.
  rewrite Hp; cbn beta iota.
  by destruct (bot (calls w) _) as [mid|[]].
Qed.

Lemma send_post_to_channel_poll
    (cfg : Config.t) (bot : list Bot.Request -> Bot.Request -> result Z)
    (get_published_post_kb : InlineKeyboardMarkup)
    (self : EventInfo.t) (message : Message.t) (p : Poll.t)
    (user_id : Z) (w : World) :
  EventInfo.message self = Some message ->
  Message.poll message = Some p ->
  calls (send_post_to_channel cfg bot get_published_post_kb self user_id w).2
  = calls w ++ [poll_copy (Config.channel_id cfg) (poll_public p)
                  (if negb (Config.comments cfg)
                   then Some get_published_post_kb else None)].
Proof.
  intros Hm Hp.
  unfold send_post_to_channel, bind, getattr, ret, call,
    PublishedPost_create, bot_data_set.
  rewrite Hm; cbn beta iota. rewrite Hp; cbn beta iota.
  destruct (bot (calls w) _) as [mid|e]; [|done].
  by destruct (negb (Config.comments cfg)).
Qed.

(** C2. The copy of a poll sent to the admin group or to the channel is
    built from the question, the option texts, the type, the
    multiple-answers flag and the correct option id of the original, and from
    nothing else of it: two submissions whose polls agree on these give the
    same call on the bot, whatever their votes and voters are. *)
Theorem poll_copy_independent_of_voters
    (cfg : Config.t) (bot : list Bot.Request -> Bot.Request -> result Z)
    (get_approve_kb get_published_post_kb : InlineKeyboardMarkup)
    (confirm1 confirm2 approved1 approved2 : EventInfo.t)
    (outer1 outer2 m1 m2 : Message.t) (p1 p2 : Poll.t)
    (user_id : Z) (w : World) :
  EventInfo.message confirm1 = Some outer1 ->
  Message.reply_to_message outer1 = Some m1 ->
  EventInfo.message confirm2 = Some outer2 ->
  Message.reply_to_message outer2 = Some m2 ->
  EventInfo.message approved1 = Some m1 ->
  EventInfo.message approved2 = Some m2 ->
  Message.poll m1 = Some p1 ->
  Message.poll m2 = Some p2 ->
  poll_public p1 = poll_public p2 ->
  let admins e := (send_post_to_admins cfg bot get_approve_kb e w).2 in
  let channel e :=
    (send_post_to_channel cfg bot get_published_post_kb e user_id w).2 in
  calls (admins confirm1)
  = calls w ++ [poll_copy (Config.admin_group_id cfg) (poll_public p1)
                  (Some get_approve_kb)]
  ∧ calls (admins confirm2) = calls (admins confirm1)
  ∧ calls (channel approved1)
    = calls w ++ [poll_copy (Config.channel_id cfg) (poll_public p1)
                    (if negb (Config.comments cfg)
                     then Some get_published_post_kb else None)]
  ∧ calls (channel approved2) = calls (channel approved1).
Proof.
  intros Hc1 Hr1 Hc2 Hr2 Ha1 Ha2 Hp1 Hp2 Hpub. cbv beta zeta.
  rewrite (send_post_to_admins_poll _ _ _ _ _ _ _ _ Hc1 Hr1 Hp1).
  rewrite (send_post_to_admins_poll _ _ _ _ _ _ _ _ Hc2 Hr2 Hp2).
  rewrite (send_post_to_channel_poll _ _ _ _ _ _ _ _ Ha1 Hp1).
  rewrite (send_post_to_channel_poll _ _ _ _ _ _ _ _ Ha2 Hp2).
  by rewrite Hpub.
Qed.

Lemma poll_copy_independent_of_voters_witness :
  let p1 := sample_poll "pizza?" 0 0 in
  let p2 := sample_poll "pizza?" 12 30 in
  let m1 := poll_message 10 (Chat.mk 77 "private") p1 in
  let m2 := poll_message 10 (Chat.mk 77 "private") p2 in
  let admins e :=
    (send_post_to_admins sample_cfg sample_bot (sample_kb "approve") e
       empty_world).2 in
  let channel e :=
    (send_post_to_channel sample_cfg sample_bot (sample_kb "vote") e 77
       empty_world).2 in
  p1 ≠ p2
  ∧ calls (admins (event_of (confirmation_of m1)))
    = calls empty_world
      ++ [poll_copy (Config.admin_group_id sample_cfg) (poll_public p1)
            (Some (sample_kb "approve"))]
  ∧ calls (admins (event_of (confirmation_of m2)))
    = calls (admins (event_of (confirmation_of m1)))
  ∧ calls (channel (event_of m1))
    = calls empty_world
      ++ [poll_copy (Config.channel_id sample_cfg) (poll_public p1)
            (if negb (Config.comments sample_cfg)
             then Some (sample_kb "vote") else None)]
  ∧ calls (channel (event_of m2)) = calls (channel (event_of m1)).
Proof.
  cbv beta zeta. split; [discriminate|].
  exact (poll_copy_independent_of_voters sample_cfg sample_bot
           (sample_kb "approve") (sample_kb "vote")
           (event_of (confirmation_of
                        (poll_message 10 (Chat.mk 77 "private")
                           (sample_poll "pizza?" 0 0))))
           (event_of (confirmation_of
                        (poll_message 10 (Chat.mk 77 "private")
                           (sample_poll "pizza?" 12 30))))
           (event_of (poll_message 10 (Chat.mk 77 "private")
                        (sample_poll "pizza?" 0 0)))
           (event_of (poll_message 10 (Chat.mk 77 "private")
                        (sample_poll "pizza?" 12 30)))
           _ _ _ _ _ _ 77 empty_world
           eq_refl eq_refl eq_refl eq_refl eq_refl eq_refl eq_refl eq_refl
           eq_refl).
Defined.

(** A non-anonymous poll with votes reaches the channel as a fresh poll. *)
Example voted_poll_published :
  calls (send_post_to_channel sample_cfg sample_bot (sample_kb "vote")
           (event_of (poll_message 10 (Chat.mk 77 "private")
                        (sample_poll "pizza?" 12 30))) 77 empty_world).2
  = [Bot.send_poll (-2002) "pizza?" ["a"; "b"] "regular" false None
       (Some (sample_kb "vote"))].
Proof. reflexivity. Qed.

(** ** Publication *)



(** Comments disabled: the post can be voted on, nobody is credited. *)
Example published_for_votes :
  send_post_to_channel sample_cfg sample_bot (sample_kb "vote")
    (event_of sample_spot) 77 empty_world
  = (Ok tt,
     mkWorld [] [PublishedPost.mk (-2002) 500 ∅ None] ∅ ∅
       [Bot.copy_message (-2002) 77 10 (Some (sample_kb "vote"))]).
Proof. reflexivity. Qed.

(** Comments enabled: the submitter is remembered under ["-2002,500"]. *)
Example published_for_comments :
  send_post_to_channel sample_cfg_comments sample_bot (sample_kb "vote")
    (event_of sample_spot) 77 empty_world
  = (Ok tt,
     mkWorld [] [] {[ "-2002,500" := 77 ]} ∅
       [Bot.copy_message (-2002) 77 10 None]).
Proof. reflexivity. Qed.

(** The decimal writing of a number contains no comma, so the key of a
    credit record tells the destination and the message apart. *)
Lemma pretty_N_go_no_comma (x : N) (s : string) :
  has_char comma (pretty_N_go x s) = has_char comma s.
Proof.
  revert s. induction (N.lt_wf_0 x) as [x _ IH]; intros s.
  assert (x = 0 ∨ 0 < x)%N as [->|Hpos] by lia.
  - by rewrite pretty_N_go_0.
  - rewrite pretty_N_go_step by done.
    rewrite IH by (by apply N.div_lt).
    unfold pretty_N_char. by repeat case_match.
Qed.

Lemma pretty_Z_no_comma (z : Z) : has_char comma (pretty z) = false.
Proof.
  assert (HN : forall n : N, has_char comma (pretty n) = false).
  { intros n. unfold pretty, pretty_N. case_decide; [done|].
    by rewrite pretty_N_go_no_comma. }
  destruct z as [|p|p]; [done | apply HN |].
  unfold pretty, pretty_Z. simpl. apply HN.
Qed.

Lemma comma_separated_inj (a b c d : string) :
  has_char comma a = false -> has_char comma c = false ->
  a +:+ "," +:+ b = c +:+ "," +:+ d -> a = c ∧ b = d.
Proof.
  revert c. induction a as [|x a IH]; intros [|y c] Ha Hc E; simpl in *.
  - by injection E.
  - injection E as <- _. by rewrite Ascii.eqb_refl in Hc.
  - injection E as -> _. by rewrite Ascii.eqb_refl in Ha.
  - apply orb_false_iff in Ha as [_ Ha]. apply orb_false_iff in Hc as [_ Hc].
    injection E as -> E. by destruct (IH c Ha Hc E) as [-> ->].
Qed.

Lemma credit_key_inj (channel1 message1 channel2 message2 : Z) :
  credit_key (Some channel1) (Some message1)
  = credit_key (Some channel2) (Some message2) ->
  channel1 = channel2 ∧ message1 = message2.
Proof.
  unfold credit_key, fmt_opt_int. intros E.
  apply comma_separated_inj in E as [Ec Em]; [|apply pretty_Z_no_comma..].
  split; by apply (inj pretty).
Qed.

(** ** Crediting the submitter *)

Lemma bot_data_pop_present (k : string) (dflt v : Z) (w : World) :
  bot_data w !! k = Some v ->
  bot_data_pop k dflt w = (Ok v, set_bot_data (delete k (bot_data w)) w).
Proof. intros H. unfold bot_data_pop. by rewrite H. Qed.

Lemma bot_data_pop_absent (k : string) (dflt : Z) (w : World) :
  bot_data w !! k = None ->
  bot_data_pop k dflt w = (Ok dflt, w).
Proof.
  intros H. unfold bot_data_pop. rewrite H, delete_id by done.
  by destruct w.
Qed.

(** Whatever happens afterwards, the cross-post removes the credit record
    of the forwarded message from [bot_data], and touches nothing else in
    it. *)
Lemma send_post_to_channel_group_bot_data
    (cfg : Config.t) (bot : list Bot.Request -> Bot.Request -> result Z)
    (get_published_post_kb : InlineKeyboardMarkup)
    (get_user_sign : Z -> result string) (self : EventInfo.t) (w : World) :
  bot_data (send_post_to_channel_group cfg bot get_published_post_kb
              get_user_sign self w).2
  = delete (credit_key (EventInfo.forward_from_chat_id self)
              (EventInfo.forward_from_id self)) (bot_data w).
Proof.
  unfold send_post_to_channel_group, bind, bot_data_pop, lift, getattr, call,
    PublishedPost_create, credit_key; cbn.
  destruct (get_user_sign _) as [sg|e]; [|done].
  destruct (EventInfo.message self) as [m|]; [|done]. cbn.
  by destruct (bot _ _).
Qed.

(** The calls a cross-post makes when the credit record of the forwarded
    message resolves to [user_id]. *)
Lemma send_post_to_channel_group_calls
    (cfg : Config.t) (bot : list Bot.Request -> Bot.Request -> result Z)
    (get_published_post_kb : InlineKeyboardMarkup)
    (get_user_sign : Z -> result string)
    (self : EventInfo.t) (message : Message.t) (user_id : Z) (w : World) :
  EventInfo.message self = Some message ->
  default (-1) (bot_data w !! credit_key (EventInfo.forward_from_chat_id self)
                                (EventInfo.forward_from_id self)) = user_id ->
  calls (send_post_to_channel_group cfg bot get_published_post_kb
           get_user_sign self w).2
  = calls w
    ++ match get_user_sign user_id with
       | Ok sign =>
           [Bot.send_message (Config.community_group_id cfg) ("by: " +:+ sign)
              (Some get_published_post_kb) None None
              (Some (Message.message_id message))]
       | Raise _ => []
       end.
Proof.
  intros Hm Hu.
  unfold send_post_to_channel_group, bind, bot_data_pop, lift, getattr, call,
    PublishedPost_create; cbn.
  fold (credit_key (EventInfo.forward_from_chat_id self)
          (EventInfo.forward_from_id self)).
  rewrite Hu, Hm.
  destruct (get_user_sign user_id) as [sg|e]; cbn.
  - by destruct (bot _ _).
  - by rewrite app_nil_r.
Qed.

(** C4. The cross-post to the community group consumes the credit record
    of the forwarded post.  The first cross-post of a post whose record holds
    a submitter signs with that submitter and removes the record; a second
    cross-post of the same post finds no record and signs with the user id
    [-1], which stands for nobody. *)
Theorem credit_record_single_use
    (cfg : Config.t) (bot : list Bot.Request -> Bot.Request -> result Z)
    (get_published_post_kb : InlineKeyboardMarkup)
    (get_user_sign : Z -> result string)
    (self : EventInfo.t) (message : Message.t) (channel : Chat.t)
    (c_message_id submitter : Z) (w : World) :
  EventInfo.message self = Some message ->
  Message.forward_from_chat message = Some channel ->
  Message.forward_from_message_id message = Some c_message_id ->
  bot_data w !! credit_key (Some (Chat.id channel)) (Some c_message_id)
  = Some submitter ->
  let key := credit_key (Some (Chat.id channel)) (Some c_message_id) in
  let cross_post :=
    send_post_to_channel_group cfg bot get_published_post_kb get_user_sign
      self in
  let signed_by (user_id : Z) :=
    match get_user_sign user_id with
    | Ok sign =>
        [Bot.send_message (Config.community_group_id cfg) ("by: " +:+ sign)
           (Some get_published_post_kb) None None
           (Some (Message.message_id message))]
    | Raise _ => []
    end in
  let w1 := (cross_post w).2 in
  let w2 := (cross_post w1).2 in
  bot_data_pop key (-1) w = (Ok submitter, set_bot_data (bot_data w1) w)
  ∧ calls w1 = calls w ++ signed_by submitter
  ∧ bot_data w1 = delete key (bot_data w)
  ∧ bot_data w1 !! key = None
  ∧ bot_data_pop key (-1) w1 = (Ok (-1), w1)
  ∧ calls w2 = calls w1 ++ signed_by (-1)
  ∧ bot_data w2 = bot_data w1.
Proof.
  intros Hm Hc Hi Hk. cbv beta zeta.
  assert (Hfc : EventInfo.forward_from_chat_id self = Some (Chat.id channel)).
  { unfold EventInfo.forward_from_chat_id. by rewrite Hm, Hc. }
  assert (Hfi : EventInfo.forward_from_id self = Some c_message_id).
  { unfold EventInfo.forward_from_id. by rewrite Hm. }
  set (key := credit_key (Some (Chat.id channel)) (Some c_message_id)) in *.
  set (cross_post := send_post_to_channel_group cfg bot get_published_post_kb
                       get_user_sign self).
  assert (Hd : forall v, bot_data (cross_post v).2 = delete key (bot_data v)).
  { intros v. unfold cross_post.
    by rewrite send_post_to_channel_group_bot_data, Hfc, Hfi. }
  assert (Hnone : bot_data (cross_post w).2 !! key = None).
  { rewrite Hd. apply lookup_delete_eq. }
  split_and!.
  - rewrite Hd. by apply bot_data_pop_present.
  - unfold cross_post. apply send_post_to_channel_group_calls; [done|].
    rewrite Hfc, Hfi. fold key. by rewrite Hk.
  - apply Hd.
  - exact Hnone.
  - by apply bot_data_pop_absent.
  - unfold cross_post at 1. apply send_post_to_channel_group_calls; [done|].
    rewrite Hfc, Hfi. fold key. fold cross_post. by rewrite Hnone.
  - rewrite Hd. by apply delete_id.
Qed.

Lemma credit_record_single_use_witness :
  let self := event_of (forwarded_post 31 500) in
  let key := credit_key (Some (-2002)) (Some 500) in
  let cross_post :=
    send_post_to_channel_group sample_cfg_comments sample_bot
      (sample_kb "vote") sample_sign self in
  let signed_by (user_id : Z) :=
    match sample_sign user_id with
    | Ok sign =>
        [Bot.send_message (Config.community_group_id sample_cfg_comments)
           ("by: " +:+ sign) (Some (sample_kb "vote")) None None
           (Some (Message.message_id (forwarded_post 31 500)))]
    | Raise _ => []
    end in
  let w1 := (cross_post credited_world).2 in
  let w2 := (cross_post w1).2 in
  bot_data_pop key (-1) credited_world
  = (Ok 77, set_bot_data (bot_data w1) credited_world)
  ∧ calls w1 = calls credited_world ++ signed_by 77
  ∧ bot_data w1 = delete key (bot_data credited_world)
  ∧ bot_data w1 !! key = None
  ∧ bot_data_pop key (-1) w1 = (Ok (-1), w1)
  ∧ calls w2 = calls w1 ++ signed_by (-1)
  ∧ bot_data w2 = bot_data w1.
Proof.
  exact (credit_record_single_use sample_cfg_comments sample_bot
           (sample_kb "vote") sample_sign (event_of (forwarded_post 31 500))
           (forwarded_post 31 500) (Chat.mk (-2002) "channel") 500 77
           credited_world eq_refl eq_refl eq_refl eq_refl).
Defined.

(** Comments enabled, from publication to the second cross-post: the
    submitter is credited once, then nobody is. *)
Example credit_scenario :
  let w0 :=
    (send_post_to_channel sample_cfg_comments sample_bot (sample_kb "vote")
       (event_of sample_spot) 77 empty_world).2 in
  let cross_post :=
    send_post_to_channel_group sample_cfg_comments sample_bot
      (sample_kb "vote") sample_sign (event_of (forwarded_post 31 500)) in
  let w1 := (cross_post w0).2 in
  let w2 := (cross_post w1).2 in
  bot_data w0 = {[ "-2002,500" := 77 ]}
  ∧ bot_data w1 = ∅
  ∧ calls w2
    = [Bot.copy_message (-2002) 77 10 None;
       Bot.send_message (-3003) "by: @user77" (Some (sample_kb "vote"))
         None None (Some 31);
       Bot.send_message (-3003) "by: anonimo" (Some (sample_kb "vote"))
         None None (Some 31)]
  ∧ published_posts w2
    = [PublishedPost.mk (-3003) 501 ∅ None;
       PublishedPost.mk (-3003) 502 ∅ None].
Proof. cbv zeta. split_and!; by vm_compute. Qed.

(** ** Sorting by key *)

Section SortBy.
Context {A : Type} (key : A -> Z).

Lemma insert_by_perm (x : A) (l : list A) : insert_by key x l ≡ₚ x :: l.
Proof.
  induction l as [|y l IH]; simpl; [done|].
  destruct (key x <=? key y); [done|].
  rewrite IH. apply Permutation_swap.
Qed.

Lemma sort_by_perm (l : list A) : sort_by key l ≡ₚ l.
Proof.
  induction l as [|x l IH]; simpl; [done|].
  fold (sort_by key l). by rewrite insert_by_perm, IH.
Qed.

Lemma sort_by_length (l : list A) : length (sort_by key l) = length l.
Proof. by rewrite sort_by_perm. Qed.

Lemma insert_by_sorted (x : A) (l : list A) :
  StronglySorted (key_le key) l ->
  StronglySorted (key_le key) (insert_by key x l).
Proof.
  induction 1 as [|y l Hl IH Hy]; simpl.
  - by repeat constructor.
  - destruct (Z.leb_spec (key x) (key y)) as [Hle|Hgt].
    + constructor; [by constructor|].
      constructor; [done|].
      eapply Forall_impl; [exact Hy|].
      unfold key_le. intros z Hz. lia.
    + constructor; [done|].
      rewrite insert_by_perm. constructor; [|done].
      unfold key_le. lia.
Qed.

Lemma sort_by_sorted (l : list A) : StronglySorted (key_le key) (sort_by key l).
Proof.
  induction l as [|x l IH]; simpl; [constructor|].
  by apply insert_by_sorted.
Qed.

(** The first element of the sorted list is an element of the list with
    the least key. *)
Lemma sort_by_head (l : list A) (x : A) (l' : list A) :
  sort_by key l = x :: l' ->
  x ∈ l ∧ forall y, y ∈ l -> key x <= key y.
Proof.
  intros E.
  pose proof (sort_by_perm l) as Hp. pose proof (sort_by_sorted l) as Hs.
  rewrite E in Hp, Hs. split.
  - rewrite <- Hp. by left.
  - intros y Hy. rewrite <- Hp in Hy.
    apply StronglySorted_inv in Hs as [_ Hall].
    apply elem_of_cons in Hy as [->|Hy]; [lia|].
    rewrite Forall_forall in Hall. by apply Hall.
Qed.
End SortBy.

Example sort_by_is_stable :
  sort_by fst [(3, "c"); (1, "a"); (3, "d"); (2, "b"); (1, "e")]
  = [(1, "a"); (1, "e"); (2, "b"); (3, "c"); (3, "d")].
Proof. reflexivity. Qed.

(** ** Orienting the admins after a decision *)

(** When the posts pending in an admin destination have distinct
    admin-message ids, the posts the code keeps are the pending posts of the
    destination other than the finalized one. *)
Lemma remaining_after_others (finalized : PendingPost.t) (w : World) :
  (forall p, p ∈ pending_posts w ->
     PendingPost.admin_group_id p = PendingPost.admin_group_id finalized ->
     PendingPost.g_message_id p = PendingPost.g_message_id finalized ->
     p = finalized) ->
  remaining_after finalized w
  = filter (fun p => p ≠ finalized
                     ∧ PendingPost.admin_group_id p
                       = PendingPost.admin_group_id finalized)
      (pending_posts w).
Proof.
  unfold remaining_after. generalize (pending_posts w) as l.
  induction l as [|a l IH]; intros Huniq; [done|].
  rewrite !filter_cons.
  rewrite IH by (intros p Hp; apply Huniq; by right).
  apply decide_ext. split.
  - intros [Hne Hg]. split; [|done]. intros ->. by apply Hne.
  - intros [Hne Hg]. split; [|done]. intros Hid. apply Hne.
    apply Huniq; [by left | done | done].
Qed.

(** C5. Once the outcome of a finalized post is shown, the posts still
    pending in the same admin destination are counted without the finalized
    one.  If there are some, one reminder is sent to the destination: its
    text gives their number and it replies to the one with the smallest
    admin-message id.  If there are none, no reminder is sent. *)
Theorem show_admins_votes_reminder
    (bot : list Bot.Request -> Bot.Request -> result Z)
    (get_post_outcome_kb :
       list (Z * bool) -> option string -> result InlineKeyboardMarkup)
    (self : EventInfo.t) (pending_post : PendingPost.t)
    (reason : option string) (kb : InlineKeyboardMarkup) (edited : Z)
    (w : World) :
  let group := PendingPost.admin_group_id pending_post in
  let edit :=
    Bot.edit_message_reply_markup (Some group)
      (Some (PendingPost.g_message_id pending_post)) (Some kb) in
  get_post_outcome_kb (PendingPost.get_list_admin_votes pending_post) reason
  = Ok kb ->
  bot (calls w) edit = Ok edited ->
  let remaining := remaining_after pending_post w in
  let w' :=
    (show_admins_votes bot get_post_outcome_kb self pending_post reason w).2 in
  pending_posts w' = pending_posts w
  ∧ (pending_post ∉ remaining)
  ∧ match remaining with
    | [] => calls w' = calls w ++ [edit]
    | _ :: _ =>
        exists oldest,
          oldest ∈ remaining
          ∧ (forall p, p ∈ remaining ->
               PendingPost.g_message_id oldest <= PendingPost.g_message_id p)
          ∧ calls w'
            = calls w
              ++ [edit;
                  Bot.send_message group (reminder_text (length remaining))
                    None None None
                    (Some (PendingPost.g_message_id oldest))]
    end.
Proof.
  intros group edit Hkb Hedit remaining w'.
  assert (Hrem : filter (fun post => PendingPost.g_message_id post
                                     ≠ PendingPost.g_message_id pending_post)
                   (filter (fun p => PendingPost.admin_group_id p = group)
                      (pending_posts w)) = remaining).
  { unfold remaining, remaining_after. by rewrite list_filter_filter. }
  subst w'.
  unfold show_admins_votes, bind, lift, call, PendingPost_get_all, ret,
    list_index.
  rewrite Hkb; cbn beta iota. fold group. fold edit.
  rewrite Hedit; cbn beta iota.
  change (pending_posts (set_calls (calls w ++ [edit]) w))
    with (pending_posts w).
  rewrite Hrem.
  split_and!.
  - destruct (sort_by PendingPost.g_message_id remaining) as [|o l];
      [reflexivity|]. cbn. by destruct (bot (calls w ++ [edit]) _).
  - unfold remaining, remaining_after. rewrite list_elem_of_filter.
    intros [[Hne _] _]. by apply Hne.
  - pose proof (sort_by_length PendingPost.g_message_id remaining) as Hlen.
    destruct (sort_by PendingPost.g_message_id remaining) as [|o l] eqn:Es.
    + destruct remaining; [done | discriminate Hlen].
    + apply sort_by_head in Es as [Hin Hmin].
      destruct remaining as [|r rs] eqn:Er; [discriminate Hlen|].
      rewrite <- Er in *. exists o. split_and!; [done | done |].
      rewrite Hlen.
      replace (0 <? length remaining)%nat with true by (by rewrite Er).
      fold (reminder_text (length remaining)).
      cbn [lookup list_lookup].
      destruct (bot (calls (set_calls (calls w ++ [edit]) w)) _);
        cbn; by rewrite <- app_assoc.
Qed.

Lemma show_admins_votes_reminder_witness :
  let pending_post := pending (-1001) 25 in
  let kb := [[InlineKeyboardButton.mk "ok" None]] in
  let group := PendingPost.admin_group_id pending_post in
  let edit :=
    Bot.edit_message_reply_markup (Some group)
      (Some (PendingPost.g_message_id pending_post)) (Some kb) in
  let remaining := remaining_after pending_post queue_world in
  let w' :=
    (show_admins_votes sample_bot sample_outcome_kb (event_of sample_spot)
       pending_post None queue_world).2 in
  pending_posts w' = pending_posts queue_world
  ∧ (pending_post ∉ remaining)
  ∧ match remaining with
    | [] => calls w' = calls queue_world ++ [edit]
    | _ :: _ =>
        exists oldest,
          oldest ∈ remaining
          ∧ (forall p, p ∈ remaining ->
               PendingPost.g_message_id oldest <= PendingPost.g_message_id p)
          ∧ calls w'
            = calls queue_world
              ++ [edit;
                  Bot.send_message group (reminder_text (length remaining))
                    None None None
                    (Some (PendingPost.g_message_id oldest))]
    end.
Proof.
  exact (show_admins_votes_reminder sample_bot sample_outcome_kb
           (event_of sample_spot) (pending (-1001) 25) None
           [[InlineKeyboardButton.mk "ok" None]] 500 queue_world
           eq_refl eq_refl).
Defined.

(** Post 25 is decided: three posts remain in the group, 31 is the oldest. *)
Example reminder_on_oldest :
  calls (show_admins_votes sample_bot sample_outcome_kb (event_of sample_spot)
           (pending (-1001) 25) None queue_world).2
  = [Bot.edit_message_reply_markup (Some (-1001)) (Some 25)
       (Some [[InlineKeyboardButton.mk "ok" None]]);
     Bot.send_message (-1001) (reminder_text 3) None None None (Some 31)].
Proof. by vm_compute. Qed.

(** The only pending post of a group is decided: no reminder. *)
Example no_reminder_when_queue_empty :
  calls (show_admins_votes sample_bot sample_outcome_kb (event_of sample_spot)
           (pending (-9) 3) (Some "spam") queue_world).2
  = [Bot.edit_message_reply_markup (Some (-9)) (Some 3)
       (Some [[InlineKeyboardButton.mk "spam" None]])].
Proof. by vm_compute. Qed.

(** * Further properties of the handlers *)

(** ** Wrappers that absorb bad requests *)

(** X1. Answering a callback query makes exactly one call, with the id of
    the event's query, and changes nothing else.  A bad request is absorbed:
    the wrapper returns normally.  Any other error of the transport is
    raised. *)
Theorem answer_callback_query_absorbs_bad_request
    (bot : list Bot.Request -> Bot.Request -> result Z)
    (self : EventInfo.t) (text : option string) (w : World) :
  let req := Bot.answer_callback_query (EventInfo.query_id self) text in
  let '(r, w') := answer_callback_query bot self text w in
  w' = set_calls (calls w ++ [req]) w
  ∧ r ≠ Raise BadRequest
  ∧ match bot (calls w) req with
    | Ok _ => r = Ok tt
    | Raise BadRequest => r = Ok tt
    | Raise e => r = Raise e
    end.
Proof.
  cbv zeta.
  unfold answer_callback_query, bind, try_BadRequest, call, ret.
  by destruct (bot (calls w) _) as [mid|[]].
Qed.


(** ** Where an event comes from *)

(** X3. An event made for a job has no message and no query: every
    accessor of the chat, the message, the user and the query returns
    [None], the message is no valid submission and no forwarded post, the
    callback key is empty and the arguments are those of the context. *)
Theorem from_job_event_is_bare (cfg : Config.t) (ctx : CallbackContext.t) :
  let self := EventInfo.from_job ctx in
  EventInfo.chat_id self = None
  ∧ EventInfo.chat_type self = None
  ∧ EventInfo.is_private_chat self = None
  ∧ EventInfo.text self = None
  ∧ EventInfo.message_id self = None
  ∧ EventInfo.reply_markup self = None
  ∧ EventInfo.inline_keyboard self = None
  ∧ EventInfo.forward_from_id self = None
  ∧ EventInfo.forward_from_chat_id self = None
  ∧ EventInfo.query_id self = None
  ∧ EventInfo.query_data self = None
  ∧ EventInfo.user_id self = Ok None
  ∧ EventInfo.user_username self = Ok None
  ∧ EventInfo.user_name self = Ok None
  ∧ EventInfo.is_valid_message_type self = false
  ∧ EventInfo.is_forwarded_post cfg self = false
  ∧ EventInfo.callback_key self = Ok ""
  ∧ EventInfo.args self = default [] (CallbackContext.args ctx).
Proof.
  cbv zeta. split_and!; reflexivity.
Qed.

(** X4. An event made from a message update takes the message of the
    update, or its edited message when there is none, and has no query: its
    callback key is empty, its arguments are those of the context, and the
    user is the sender of the message.  Reading the user of a message
    without a sender (a channel post) raises. *)
Theorem from_message_event (update : Update.t) (ctx : CallbackContext.t) :
  let self := EventInfo.from_message update ctx in
  EventInfo.message self
  = match Update.message update with
    | Some m => Some m
    | None => Update.edited_message update
    end
  ∧ EventInfo.query_data self = None
  ∧ EventInfo.callback_key self = Ok ""
  ∧ EventInfo.args self = default [] (CallbackContext.args ctx)
  ∧ match EventInfo.message self with
    | None =>
        EventInfo.user_id self = Ok None
        ∧ EventInfo.user_username self = Ok None
        ∧ EventInfo.user_name self = Ok None
    | Some m =>
        match Message.from_user m with
        | Some u =>
            EventInfo.user_id self = Ok (Some (User.id u))
            ∧ EventInfo.user_username self = Ok (Some (User.username u))
            ∧ EventInfo.user_name self = Ok (Some (User.name u))
        | None =>
            EventInfo.user_id self = Raise AttributeError
            ∧ EventInfo.user_username self = Raise AttributeError
            ∧ EventInfo.user_name self = Raise AttributeError
        end
    end.
Proof.
  cbv zeta.
  unfold EventInfo.from_message, EventInfo.user_id, EventInfo.user_username,
    EventInfo.user_name, EventInfo.from_user_attr, EventInfo.args,
    EventInfo.callback_key, EventInfo.query_data;
    cbn [EventInfo.message EventInfo.query EventInfo.ctx].
  split_and!; try reflexivity.
  destruct (Update.message update) as [m|];
    [|destruct (Update.edited_message update) as [m|]];
    try done; by destruct (Message.from_user m).
Qed.

(** X5. An event cannot be made from a callback update without a callback
    query.  With one, the event holds the query and the message the query is
    attached to; the user is the one the query comes from, and reading it
    never raises, whatever the message is; the arguments are the fields of
    the query's data and the arguments of the context are not looked at. *)
Theorem from_callback_event (update : Update.t) (ctx : CallbackContext.t) :
  match Update.callback_query update with
  | None => EventInfo.from_callback update ctx = Raise AttributeError
  | Some q =>
      exists self,
        EventInfo.from_callback update ctx = Ok self
        ∧ EventInfo.message self = CallbackQuery.message q
        ∧ EventInfo.query_id self = Some (CallbackQuery.id q)
        ∧ EventInfo.query_data self = CallbackQuery.data q
        ∧ EventInfo.user_id self
          = Ok (Some (User.id (CallbackQuery.from_user q)))
        ∧ EventInfo.user_username self
          = Ok (Some (User.username (CallbackQuery.from_user q)))
        ∧ EventInfo.user_name self
          = Ok (Some (User.name (CallbackQuery.from_user q)))
        ∧ match CallbackQuery.data q with
          | Some d =>
              EventInfo.callback_key self = Ok (before_first_comma d)
              ∧ EventInfo.args self = fields_after_first d
          | None =>
              EventInfo.callback_key self = Ok ""
              ∧ EventInfo.args self = default [] (CallbackContext.args ctx)
          end
  end.
Proof.
  unfold EventInfo.from_callback.
  destruct (Update.callback_query update) as [q|]; [|done].
  eexists; split_and!; try reflexivity.
  destruct q as [qid qfrom [d|] qmsg];
    unfold EventInfo.callback_key, EventInfo.args, list_index;
    cbn [EventInfo.query EventInfo.ctx CallbackQuery.data].
  - by rewrite split_head, args_of_split, split_tail.
  - by destruct (CallbackContext.args ctx).
Qed.

(** X6. An event is a forwarded post exactly when it has a message that
    sits in the community group and is forwarded from the channel.  An event
    without a message, or whose message is not forwarded from a chat, is
    not. *)
Theorem is_forwarded_post_iff (cfg : Config.t) (self : EventInfo.t) :
  EventInfo.is_forwarded_post cfg self = true
  <-> exists m c,
        EventInfo.message self = Some m
        ∧ Message.forward_from_chat m = Some c
        ∧ Chat.id (Message.chat m) = Config.community_group_id cfg
        ∧ Chat.id c = Config.channel_id cfg.
Proof.
  unfold EventInfo.is_forwarded_post, EventInfo.chat_id,
    EventInfo.forward_from_chat_id, Message.chat_id.
  rewrite andb_true_iff, !bool_decide_eq_true.
  destruct (EventInfo.message self) as [m|].
  - destruct (Message.forward_from_chat m) as [c|] eqn:Ec.
    + split.
      * intros [[= H1] [= H2]]. by exists m, c.
      * intros (m' & c' & [= <-] & Hc & H1 & H2).
        rewrite Ec in Hc. injection Hc as <-. by rewrite H1, H2.
    + split; [by intros [_ [=]]|].
      intros (m' & c' & [= <-] & Hc & _). by rewrite Ec in Hc.
  - split; [by intros [[=] _]|]. by intros (m' & c' & [=] & _).
Qed.

(** ** Callback data, there and back *)

Lemma split_comma_free (x : string) :
  has_char comma x = false -> split comma x = [x].
Proof.
  induction x as [|c x IH]; simpl; [done|].
  intros H. apply orb_false_iff in H as [Hc Hx].
  by rewrite Hc, (IH Hx).
Qed.

Lemma split_comma_cons (x r : string) :
  has_char comma x = false ->
  split comma (x +:+ "," +:+ r) = x :: split comma r.
Proof.
  induction x as [|c x IH]; simpl; [done|].
  intros H. apply orb_false_iff in H as [Hc Hx].
  by rewrite Hc, (IH Hx).
Qed.

Lemma split_join (l : list string) :
  l ≠ [] ->
  Forall (fun f => has_char comma f = false) l ->
  split comma (join "," l) = l.
Proof.
  induction l as [|x l IH]; [done|]. intros _ F.
  inversion F as [|? ? Hx Hl]; subst.
  destruct l as [|y l].
  - by apply split_comma_free.
  - change (join "," (x :: y :: l)) with (x +:+ "," +:+ join "," (y :: l)).
    rewrite split_comma_cons by done.
    by rewrite IH.
Qed.

(** X7. Callback data written as an action key and arguments joined by
    commas is read back as that key and those arguments, provided none of
    them contains a comma. *)
Theorem callback_data_round_trip
    (ctx : CallbackContext.t) (update : option Update.t)
    (message : option Message.t) (id : string) (from_user : User.t)
    (attached : option Message.t) (key : string) (args : list string) :
  has_char comma key = false ->
  Forall (fun a => has_char comma a = false) args ->
  let data := join "," (key :: args) in
  let self :=
    EventInfo.mk ctx update message
      (Some (CallbackQuery.mk id from_user (Some data) attached)) in
  EventInfo.callback_key self = Ok key ∧ EventInfo.args self = args.
Proof.
  intros Hk Ha. cbv zeta.
  unfold EventInfo.callback_key, EventInfo.args, list_index;
    cbn [EventInfo.query EventInfo.ctx CallbackQuery.data].
  rewrite args_of_split, split_join by (done || by constructor).
  done.
Qed.

Lemma callback_data_round_trip_witness :
  let self :=
    EventInfo.mk (CallbackContext.mk (Some ["ignored"])) None None
      (Some (CallbackQuery.mk "q" (User.mk 7 None "Ann" None)
               (Some (join "," ["vote"; "12"; "yes"])) None)) in
  EventInfo.callback_key self = Ok "vote"
  ∧ EventInfo.args self = ["12"; "yes"].
Proof.
  exact (callback_data_round_trip (CallbackContext.mk (Some ["ignored"]))
           None None "q" (User.mk 7 None "Ann" None) None "vote"
           ["12"; "yes"] eq_refl ltac:(repeat constructor)).
Defined.

(** ** Forwarding to the admins: texts and missing messages *)

(** X8. A text with entities is sent to the admins anew, with its text and
    its entities, rather than copied.  The link preview is disabled exactly
    when [user_data] holds [False] under ["show_preview"]; without that key
    the preview is shown. *)
Theorem send_post_to_admins_text_preview
    (cfg : Config.t) (bot : list Bot.Request -> Bot.Request -> result Z)
    (get_approve_kb : InlineKeyboardMarkup)
    (self : EventInfo.t) (outer message : Message.t) (text : string)
    (w : World) :
  EventInfo.message self = Some outer ->
  Message.reply_to_message outer = Some message ->
  Message.poll message = None ->
  Message.text message = Some text ->
  text ≠ "" ->
  Message.entities message ≠ [] ->
  let disable :=
    match user_data w !! "show_preview" with
    | Some show_preview => negb show_preview
    | None => false
    end in
  calls (send_post_to_admins cfg bot get_approve_kb self w).2
  = calls w
    ++ [Bot.send_message (Config.admin_group_id cfg) text
          (Some get_approve_kb) (Some (Message.entities message))
          (Some disable) None].
Proof.
  intros Hm Hr Hp Ht Hne He. cbv zeta.
  unfold send_post_to_admins, bind, getattr, ret, try_BadRequest, call,
    user_data_get, PendingPost_create.
  rewrite Hm; cbn beta iota. rewrite Hr; cbn beta iota.
  rewrite Hp, Ht; cbn beta iota.
  assert (Htruthy : opt_str_truthy (Some text)
                    && seq_truthy (Message.entities message) = true).
  { destruct text; [done|]. by destruct (Message.entities message). }
  rewrite Htruthy; cbn beta iota.
  replace (negb (default true (user_data w !! "show_preview")))
    with (match user_data w !! "show_preview" with
          | Some show_preview => negb show_preview
          | None => false
          end)
    by (by destruct (user_data w !! "show_preview")).
  by destruct (bot (calls w) _) as [mid|[]].
Qed.

Lemma send_post_to_admins_text_preview_witness :
  calls (send_post_to_admins sample_cfg sample_bot (sample_kb "approve")
           (event_of (confirmation_of link_spot)) no_preview_world).2
  = calls no_preview_world
    ++ [Bot.send_message (Config.admin_group_id sample_cfg) "sito bello"
          (Some (sample_kb "approve")) (Some (Message.entities link_spot))
          (Some (match user_data no_preview_world !! "show_preview" with
                 | Some show_preview => negb show_preview
                 | None => false
                 end)) None].
Proof.
  exact (send_post_to_admins_text_preview sample_cfg sample_bot
           (sample_kb "approve") (event_of (confirmation_of link_spot))
           (confirmation_of link_spot) link_spot "sito bello"
           no_preview_world eq_refl eq_refl eq_refl eq_refl
           ltac:(discriminate) ltac:(discriminate)).
Defined.

Example link_forwarded_without_preview :
  calls (send_post_to_admins sample_cfg sample_bot (sample_kb "approve")
           (event_of (confirmation_of link_spot)) no_preview_world).2
  = [Bot.send_message (-1001) "sito bello" (Some (sample_kb "approve"))
       (Some [MessageEntity.mk "text_link" 0 4 (Some "https://example.org")
                None])
       (Some true) None].
Proof. by vm_compute. Qed.

(** X9. When the event has no message, or its message replies to nothing,
    there is nothing to forward to the admins: the operation raises before
    any call on the bot and leaves the world as it is. *)
Theorem send_post_to_admins_nothing_to_forward
    (cfg : Config.t) (bot : list Bot.Request -> Bot.Request -> result Z)
    (get_approve_kb : InlineKeyboardMarkup)
    (self : EventInfo.t) (w : World) :
  EventInfo.message self ≫= Message.reply_to_message = None ->
  send_post_to_admins cfg bot get_approve_kb self w
  = (Raise AttributeError, w).
Proof.
  intros H. unfold send_post_to_admins, bind, getattr, ret, raise.
  destruct (EventInfo.message self) as [outer|]; [|done].
  simpl in H. by rewrite H.
Qed.

Lemma send_post_to_admins_nothing_to_forward_witness :
  send_post_to_admins sample_cfg sample_bot (sample_kb "approve")
    (event_of sample_spot) queue_world
  = (Raise AttributeError, queue_world).
Proof.
  exact (send_post_to_admins_nothing_to_forward sample_cfg sample_bot
           (sample_kb "approve") (event_of sample_spot) queue_world
           eq_refl).
Defined.

(** ** Publication and cross-post: failures *)

(** X10. Without a message there is nothing to publish: publication raises
    before any call and leaves the world as it is.  The cross-post raises as
    well, without any call and without creating a published post, but only
    after it has taken the record under the key ["None,None"] out of
    [bot_data] and asked for the sign of its user. *)
Theorem publication_without_message
    (cfg : Config.t) (bot : list Bot.Request -> Bot.Request -> result Z)
    (get_published_post_kb : InlineKeyboardMarkup)
    (get_user_sign : Z -> result string)
    (self : EventInfo.t) (user_id : Z) (w : World) :
  EventInfo.message self = None ->
  send_post_to_channel cfg bot get_published_post_kb self user_id w
  = (Raise AttributeError, w)
  ∧ send_post_to_channel_group cfg bot get_published_post_kb get_user_sign
      self w
    = (match get_user_sign (default (-1) (bot_data w !! "None,None")) with
       | Ok _ => Raise AttributeError
       | Raise e => Raise e
       end,
       set_bot_data (delete "None,None" (bot_data w)) w).
Proof.
  intros Hm. split.
  - unfold send_post_to_channel, bind, getattr, raise. by rewrite Hm.
  - unfold send_post_to_channel_group, bind, bot_data_pop, lift, getattr,
      raise, EventInfo.forward_from_chat_id, EventInfo.forward_from_id.
    rewrite Hm.
    change (fmt_opt_int None +:+ "," +:+ fmt_opt_int None) with "None,None".
    cbn [bot_data set_bot_data].
    by destruct (get_user_sign _).
Qed.

Lemma publication_without_message_witness :
  let self := EventInfo.from_job (CallbackContext.mk None) in
  send_post_to_channel sample_cfg sample_bot (sample_kb "vote") self 77
    credited_world
  = (Raise AttributeError, credited_world)
  ∧ send_post_to_channel_group sample_cfg sample_bot (sample_kb "vote")
      sample_sign self credited_world
    = (match sample_sign
               (default (-1) (bot_data credited_world !! "None,None")) with
       | Ok _ => Raise AttributeError
       | Raise e => Raise e
       end,
       set_bot_data (delete "None,None" (bot_data credited_world))
         credited_world).
Proof.
  exact (publication_without_message sample_cfg sample_bot (sample_kb "vote")
           sample_sign (EventInfo.from_job (CallbackContext.mk None)) 77
           credited_world eq_refl).
Defined.

(** X11. The cross-post of a forwarded post takes its credit record out of
    [bot_data] whatever happens next.  If the sign of the user cannot be
    computed, no call is made.  Otherwise one message is sent to the
    community group, in reply to the forwarded post and with the vote
    keyboard; if that succeeds, one published post is created for the
    community group and the new message, and if it fails the error is raised
    and no published post is created, the credit record being lost. *)
Theorem send_post_to_channel_group_outcome
    (cfg : Config.t) (bot : list Bot.Request -> Bot.Request -> result Z)
    (get_published_post_kb : InlineKeyboardMarkup)
    (get_user_sign : Z -> result string)
    (self : EventInfo.t) (message : Message.t) (w : World) :
  EventInfo.message self = Some message ->
  let key :=
    credit_key (EventInfo.forward_from_chat_id self)
      (EventInfo.forward_from_id self) in
  let '(r, w') :=
    send_post_to_channel_group cfg bot get_published_post_kb get_user_sign
      self w in
  bot_data w' = delete key (bot_data w)
  ∧ pending_posts w' = pending_posts w
  ∧ match get_user_sign (default (-1) (bot_data w !! key)) with
    | Raise e =>
        r = Raise e
        ∧ calls w' = calls w
        ∧ published_posts w' = published_posts w
    | Ok sign =>
        let req :=
          Bot.send_message (Config.community_group_id cfg) ("by: " +:+ sign)
            (Some get_published_post_kb) None None
            (Some (Message.message_id message)) in
        calls w' = calls w ++ [req]
        ∧ match bot (calls w) req with
          | Ok post_message_id =>
              r = Ok tt
              ∧ published_posts w'
                = published_posts w
                  ++ [PublishedPost.mk (Config.community_group_id cfg)
                        post_message_id ∅ None]
          | Raise e =>
              r = Raise e ∧ published_posts w' = published_posts w
          end
    end.
Proof.
  intros Hm. cbv zeta.
  unfold send_post_to_channel_group, bind, bot_data_pop, lift, getattr, ret,
    call, PublishedPost_create.
  fold (credit_key (EventInfo.forward_from_chat_id self)
          (EventInfo.forward_from_id self)).
  rewrite Hm.
  destruct (get_user_sign _) as [sign|e]; cbn; [|done].
  by destruct (bot (calls w) _) as [mid|e].
Qed.

Lemma send_post_to_channel_group_outcome_witness :
  let self := event_of (forwarded_post 31 500) in
  let key :=
    credit_key (EventInfo.forward_from_chat_id self)
      (EventInfo.forward_from_id self) in
  let '(r, w') :=
    send_post_to_channel_group sample_cfg_comments
      (failing_bot TelegramError) (sample_kb "vote") sample_sign self
      credited_world in
  bot_data w' = delete key (bot_data credited_world)
  ∧ pending_posts w' = pending_posts credited_world
  ∧ match sample_sign (default (-1) (bot_data credited_world !! key)) with
    | Raise e =>
        r = Raise e
        ∧ calls w' = calls credited_world
        ∧ published_posts w' = published_posts credited_world
    | Ok sign =>
        let req :=
          Bot.send_message (Config.community_group_id sample_cfg_comments)
            ("by: " +:+ sign) (Some (sample_kb "vote")) None None
            (Some (Message.message_id (forwarded_post 31 500))) in
        calls w' = calls credited_world ++ [req]
        ∧ match failing_bot TelegramError (calls credited_world) req with
          | Ok post_message_id =>
              r = Ok tt
              ∧ published_posts w'
                = published_posts credited_world
                  ++ [PublishedPost.mk
                        (Config.community_group_id sample_cfg_comments)
                        post_message_id ∅ None]
          | Raise e =>
              r = Raise e
              ∧ published_posts w' = published_posts credited_world
          end
    end.
Proof.
  exact (send_post_to_channel_group_outcome sample_cfg_comments
           (failing_bot TelegramError) (sample_kb "vote") sample_sign
           (event_of (forwarded_post 31 500)) (forwarded_post 31 500)
           credited_world eq_refl).
Defined.

(** A cross-post the transport refuses: the submitter's credit is gone and
    nothing is published. *)
Example credit_lost_on_failure :
  send_post_to_channel_group sample_cfg_comments (failing_bot TelegramError)
    (sample_kb "vote") sample_sign (event_of (forwarded_post 31 500))
    credited_world
  = (Raise TelegramError,
     mkWorld [] [] ∅ ∅
       [Bot.send_message (-3003) "by: @user77" (Some (sample_kb "vote"))
          None None (Some 31)]).
Proof. by vm_compute. Qed.

(** ** Credit records of different posts *)

Lemma pretty_N_go_no_N (x : N) (s : string) :
  has_char "N" (pretty_N_go x s) = has_char "N" s.
Proof.
  revert s. induction (N.lt_wf_0 x) as [x _ IH]; intros s.
  assert (x = 0 ∨ 0 < x)%N as [->|Hpos] by lia.
  - by rewrite pretty_N_go_0.
  - rewrite pretty_N_go_step by done.
    rewrite IH by (by apply N.div_lt).
    unfold pretty_N_char. by repeat case_match.
Qed.

Lemma pretty_Z_no_N (z : Z) : has_char "N" (pretty z) = false.
Proof.
  assert (HN : forall n : N, has_char "N" (pretty n) = false).
  { intros n. unfold pretty, pretty_N. case_decide; [done|].
    by rewrite pretty_N_go_no_N. }
  destruct z as [|p|p]; [done | apply HN |].
  unfold pretty, pretty_Z. simpl. apply HN.
Qed.

Lemma fmt_opt_int_no_comma (o : option Z) :
  has_char comma (fmt_opt_int o) = false.
Proof. destruct o; [apply pretty_Z_no_comma | done]. Qed.

Lemma fmt_opt_int_inj (o1 o2 : option Z) :
  fmt_opt_int o1 = fmt_opt_int o2 -> o1 = o2.
Proof.
  destruct o1 as [z1|], o2 as [z2|]; simpl; intros E; [| | |done].
  - f_equal. by apply (inj pretty).
  - pose proof (pretty_Z_no_N z1) as H. by rewrite E in H.
  - pose proof (pretty_Z_no_N z2) as H. by rewrite <- E in H.
Qed.

Lemma credit_key_inj_opt (channel1 message1 channel2 message2 : option Z) :
  credit_key channel1 message1 = credit_key channel2 message2 ->
  channel1 = channel2 ∧ message1 = message2.
Proof.
  unfold credit_key. intros E.
  apply comma_separated_inj in E as [Ec Em];
    [|apply fmt_opt_int_no_comma..].
  split; by apply fmt_opt_int_inj.
Qed.

(** X12. The cross-post of a forwarded post leaves the credit records of
    all other posts in place: the record of another destination or another
    message is found after the cross-post as it was before. *)
Theorem cross_post_keeps_other_credits
    (cfg : Config.t) (bot : list Bot.Request -> Bot.Request -> result Z)
    (get_published_post_kb : InlineKeyboardMarkup)
    (get_user_sign : Z -> result string)
    (self : EventInfo.t) (channel_id c_message_id : option Z) (w : World) :
  (channel_id, c_message_id)
  ≠ (EventInfo.forward_from_chat_id self, EventInfo.forward_from_id self) ->
  bot_data (send_post_to_channel_group cfg bot get_published_post_kb
              get_user_sign self w).2
    !! credit_key channel_id c_message_id
  = bot_data w !! credit_key channel_id c_message_id.
Proof.
  intros Hne. rewrite send_post_to_channel_group_bot_data.
  apply lookup_delete_ne. intros E.
  apply credit_key_inj_opt in E as [<- <-]. by apply Hne.
Qed.

Lemma cross_post_keeps_other_credits_witness :
  bot_data (send_post_to_channel_group sample_cfg_comments sample_bot
              (sample_kb "vote") sample_sign
              (event_of (forwarded_post 31 501)) credited_world).2
    !! credit_key (Some (-2002)) (Some 500)
  = bot_data credited_world !! credit_key (Some (-2002)) (Some 500).
Proof.
  exact (cross_post_keeps_other_credits sample_cfg_comments sample_bot
           (sample_kb "vote") sample_sign (event_of (forwarded_post 31 501))
           (Some (-2002)) (Some 500) credited_world ltac:(discriminate)).
Defined.

(** Publication with comments enabled, as one step. *)
Lemma send_post_to_channel_with_comments
    (cfg : Config.t) (bot : list Bot.Request -> Bot.Request -> result Z)
    (get_published_post_kb : InlineKeyboardMarkup)
    (self : EventInfo.t) (m : Message.t) (user_id : Z) (w : World) :
  Config.comments cfg = true ->
  EventInfo.message self = Some m ->
  exists req,
    send_post_to_channel cfg bot get_published_post_kb self user_id w
    = match bot (calls w) req with
      | Ok c_message_id =>
          (Ok tt,
           set_bot_data
             (<[credit_key (Some (Config.channel_id cfg)) (Some c_message_id)
                := user_id]> (bot_data w))
             (set_calls (calls w ++ [req]) w))
      | Raise e => (Raise e, set_calls (calls w ++ [req]) w)
      end.
Proof.
  intros Hc Hm.
  unfold send_post_to_channel, bind, getattr, ret, call, bot_data_set.
  rewrite Hm, Hc; cbn [negb]; cbn beta iota.
  destruct (Message.poll m) as [poll|].
  - exists (Bot.send_poll (Config.channel_id cfg) (Poll.question poll)
              (map PollOption.text (Poll.options poll)) (Poll.type poll)
              (Poll.allows_multiple_answers poll)
              (Poll.correct_option_id poll) None).
    by destruct (bot (calls w) _).
  - exists (Bot.copy_message (Config.channel_id cfg) (Message.chat_id m)
              (Message.message_id m) None).
    by destruct (bot (calls w) _).
Qed.

(** X13. With comments enabled, the submitter given at publication is the
    one the cross-post signs with: when the channel post, forwarded to the
    community group under the id the transport gave it, is cross-posted, the
    sign asked for is that of the submitter, and the record is gone
    afterwards. *)
Theorem credit_published_then_resolved
    (cfg : Config.t) (bot : list Bot.Request -> Bot.Request -> result Z)
    (get_published_post_kb : InlineKeyboardMarkup)
    (get_user_sign : Z -> result string)
    (approved : EventInfo.t) (m : Message.t) (user_id : Z) (w : World) :
  Config.comments cfg = true ->
  EventInfo.message approved = Some m ->
  (send_post_to_channel cfg bot get_published_post_kb approved user_id w).1
  = Ok tt ->
  let w0 :=
    (send_post_to_channel cfg bot get_published_post_kb approved user_id
       w).2 in
  exists req c_message_id,
    calls w0 = calls w ++ [req]
    ∧ bot (calls w) req = Ok c_message_id
    ∧ forall (forwarded : EventInfo.t) (fm : Message.t) (channel : Chat.t),
        EventInfo.message forwarded = Some fm ->
        Message.forward_from_chat fm = Some channel ->
        Chat.id channel = Config.channel_id cfg ->
        Message.forward_from_message_id fm = Some c_message_id ->
        let w1 :=
          (send_post_to_channel_group cfg bot get_published_post_kb
             get_user_sign forwarded w0).2 in
        calls w1
        = calls w0
          ++ match get_user_sign user_id with
             | Ok sign =>
                 [Bot.send_message (Config.community_group_id cfg)
                    ("by: " +:+ sign) (Some get_published_post_kb) None None
                    (Some (Message.message_id fm))]
             | Raise _ => []
             end
        ∧ bot_data w1
            !! credit_key (Some (Config.channel_id cfg)) (Some c_message_id)
          = None.
Proof.
  intros Hc Hm Hok w0. subst w0.
  destruct (send_post_to_channel_with_comments cfg bot get_published_post_kb
              approved m user_id w Hc Hm) as (req & Hrun).
  rewrite Hrun in *.
  destruct (bot (calls w) req) as [mid|e] eqn:Eb; [|done].
  exists req, mid. split_and!; [done | done |].
  intros forwarded fm channel Hfm Hch Hid Hmid. cbv zeta.
  assert (Hfc : EventInfo.forward_from_chat_id forwarded
                = Some (Config.channel_id cfg)).
  { unfold EventInfo.forward_from_chat_id. by rewrite Hfm, Hch, Hid. }
  assert (Hfi : EventInfo.forward_from_id forwarded = Some mid).
  { unfold EventInfo.forward_from_id. by rewrite Hfm. }
  split.
  - apply send_post_to_channel_group_calls; [done|].
    rewrite Hfc, Hfi. cbn [snd bot_data set_bot_data set_calls].
    by rewrite lookup_insert_eq.
  - rewrite send_post_to_channel_group_bot_data, Hfc, Hfi.
    apply lookup_delete_eq.
Qed.

Lemma credit_published_then_resolved_witness :
  let w0 :=
    (send_post_to_channel sample_cfg_comments sample_bot (sample_kb "vote")
       (event_of sample_spot) 77 empty_world).2 in
  exists req c_message_id,
    calls w0 = calls empty_world ++ [req]
    ∧ sample_bot (calls empty_world) req = Ok c_message_id
    ∧ forall (forwarded : EventInfo.t) (fm : Message.t) (channel : Chat.t),
        EventInfo.message forwarded = Some fm ->
        Message.forward_from_chat fm = Some channel ->
        Chat.id channel = Config.channel_id sample_cfg_comments ->
        Message.forward_from_message_id fm = Some c_message_id ->
        let w1 :=
          (send_post_to_channel_group sample_cfg_comments sample_bot
             (sample_kb "vote") sample_sign forwarded w0).2 in
        calls w1
        = calls w0
          ++ match sample_sign 77 with
             | Ok sign =>
                 [Bot.send_message
                    (Config.community_group_id sample_cfg_comments)
                    ("by: " +:+ sign) (Some (sample_kb "vote")) None None
                    (Some (Message.message_id fm))]
             | Raise _ => []
             end
        ∧ bot_data w1
            !! credit_key (Some (Config.channel_id sample_cfg_comments))
                 (Some c_message_id)
          = None.
Proof.
  exact (credit_published_then_resolved sample_cfg_comments sample_bot
           (sample_kb "vote") sample_sign (event_of sample_spot) sample_spot
           77 empty_world eq_refl eq_refl eq_refl).
Defined.

(** ** Showing the votes: what can go wrong, what is never touched *)

(** X14. Showing the votes of a decided post never changes the pending
    posts, the published posts, [bot_data] or [user_data].  If the outcome
    keyboard cannot be built, no call is made.  If setting it on the admin
    message fails, with a bad request or any other error, the error is
    raised and no reminder follows.  Otherwise at most one more call is
    made. *)
Theorem show_admins_votes_effects
    (bot : list Bot.Request -> Bot.Request -> result Z)
    (get_post_outcome_kb :
       list (Z * bool) -> option string -> result InlineKeyboardMarkup)
    (self : EventInfo.t) (pending_post : PendingPost.t)
    (reason : option string) (w : World) :
  let '(r, w') :=
    show_admins_votes bot get_post_outcome_kb self pending_post reason w in
  pending_posts w' = pending_posts w
  ∧ published_posts w' = published_posts w
  ∧ bot_data w' = bot_data w
  ∧ user_data w' = user_data w
  ∧ match get_post_outcome_kb
            (PendingPost.get_list_admin_votes pending_post) reason with
    | Raise e => r = Raise e ∧ calls w' = calls w
    | Ok inline_keyboard =>
        let edit :=
          Bot.edit_message_reply_markup
            (Some (PendingPost.admin_group_id pending_post))
            (Some (PendingPost.g_message_id pending_post))
            (Some inline_keyboard) in
        match bot (calls w) edit with
        | Raise e => r = Raise e ∧ calls w' = calls w ++ [edit]
        | Ok _ =>
            exists reminders,
              calls w' = calls w ++ edit :: reminders
              ∧ (length reminders <= 1)%nat
        end
    end.
Proof.
  unfold show_admins_votes, bind, lift, call, PendingPost_get_all, ret,
    list_index.
  destruct (get_post_outcome_kb _ reason) as [kb|e]; cbn beta iota; [|done].
  destruct (bot (calls w) _) as [edited|e]; cbn beta iota zeta; [|done].
  match goal with
  | |- context [sort_by ?k ?l] => destruct (sort_by k l) as [|o l']
  end.
  - cbn. split_and!; try done. exists []. split; [done | simpl; lia].
  - cbn.
    match goal with
    | |- context [bot ?c ?q] => destruct (bot c q) as [sent|e]
    end.
    + cbn. split_and!; try done. eexists [_].
      split; [by rewrite <- app_assoc | simpl; lia].
    + cbn. split_and!; try done. eexists [_].
      split; [by rewrite <- app_assoc | simpl; lia].
Qed.

(** The admin message is gone: the error is raised, no reminder is sent. *)
Example outcome_not_shown :
  show_admins_votes (failing_bot BadRequest) sample_outcome_kb
    (event_of sample_spot) (pending (-1001) 25) None queue_world
  = (Raise BadRequest,
     set_calls
       [Bot.edit_message_reply_markup (Some (-1001)) (Some 25)
          (Some [[InlineKeyboardButton.mk "ok" None]])] queue_world).
Proof. by vm_compute. Qed.
